(** * AI-Powered Presentation Generator: a shallow embedding of the backend

    The development follows the three backend modules:
    - [schemas.py]      the pydantic records and the LangGraph state,
    - [graph.py]        the six pipeline nodes and the linear workflow,
    - [presentation.py] the deterministic deck renderer.

    Python values are modelled as the code sees them: a [str] is a sequence
    of Unicode code points, a [dict] is an insertion-ordered association
    list with unique keys, an exception is a value of an error monad, and
    the external services (the generative model, the search tool) are
    oracles threading an abstract world. *)

From Stdlib Require Import String Ascii NArith ZArith Lia.
From stdpp Require Import base decidable option numbers list.

Set Default Proof Using "Type".

(* ===================================================================== *)
(** * Python strings *)
(* ===================================================================== *)

(** A Python [str] is a sequence of code points. *)
Abbreviation pystr := (list N).

(** An ASCII literal as a Python string. *)
Fixpoint py (s : string) : pystr :=
  match s with
  | EmptyString => []
  | String a s' => N_of_ascii a :: py s'
  end.
Arguments py _%_string : simpl never.

Definition NEWLINE : N := 10.
Definition SPACE : N := 32.
Definition HYPHEN : N := 45.
Definition COLON : N := 58.
(** U+2013, the en-dash of the title pattern. *)
Definition EN_DASH : N := 8211.

(** [str.isspace] on one code point (CPython's [Py_UNICODE_ISSPACE]). *)
Definition isspace (c : N) : bool :=
  ((9 <=? c) && (c <=? 13) || (28 <=? c) && (c <=? 32)
   || (c =? 133) || (c =? 160) || (c =? 5760)
   || (8192 <=? c) && (c <=? 8202)
   || (c =? 8232) || (c =? 8233) || (c =? 8239) || (c =? 8287)
   || (c =? 12288))%N.

(** [s.lstrip()], [s.rstrip()], [s.strip()] *)
Fixpoint lstrip (s : pystr) : pystr :=
  match s with
  | [] => []
  | c :: s' => if isspace c then lstrip s' else s
  end.

Definition rstrip (s : pystr) : pystr := rev (lstrip (rev s)).

Definition strip (s : pystr) : pystr := rstrip (lstrip s).

(** [s.startswith(p)], [s.endswith(p)] *)
Fixpoint startswith (p s : pystr) : bool :=
  match p, s with
  | [], _ => true
  | _ :: _, [] => false
  | a :: p', b :: s' => (a =? b)%N && startswith p' s'
  end.

Definition endswith (p s : pystr) : bool := startswith (rev p) (rev s).

(** [sep.join(parts)] *)
Fixpoint join (sep : pystr) (parts : list pystr) : pystr :=
  match parts with
  | [] => []
  | [p] => p
  | p :: ps => p ++ sep ++ join sep ps
  end.

(** [s[2:-2]] *)
Definition slice_2_m2 (s : pystr) : pystr := take (length s - 4) (drop 2 s).

(** [s[:n] + "..." if len(s) > n else s] *)
Definition truncate (n : nat) (s : pystr) : pystr :=
  if n <? length s then take n s ++ py "..." else s.

(** Decimal digits of a natural number, as code points. *)
Fixpoint uint_codes (d : Decimal.uint) : pystr :=
  match d with
  | Decimal.Nil => []
  | Decimal.D0 d' => 48%N :: uint_codes d'
  | Decimal.D1 d' => 49%N :: uint_codes d'
  | Decimal.D2 d' => 50%N :: uint_codes d'
  | Decimal.D3 d' => 51%N :: uint_codes d'
  | Decimal.D4 d' => 52%N :: uint_codes d'
  | Decimal.D5 d' => 53%N :: uint_codes d'
  | Decimal.D6 d' => 54%N :: uint_codes d'
  | Decimal.D7 d' => 55%N :: uint_codes d'
  | Decimal.D8 d' => 56%N :: uint_codes d'
  | Decimal.D9 d' => 57%N :: uint_codes d'
  end.

(** [f"{n:02d}"] for a non-negative [n] *)
Definition format_02d (n : nat) : pystr :=
  let digits := uint_codes (Nat.to_uint n) in
  if length digits <? 2 then 48%N :: digits else digits.

(* ===================================================================== *)
(** * Python dictionaries *)
(* ===================================================================== *)

(** A [dict] keeps its keys in insertion order; assigning to a key already
    present replaces the value and leaves the key where it is. *)
Module PyDict.
Section ops.
Context {K V : Type} `{EqDecision K}.

(** [d.get(k)], and [d[k]] when the key is known to be present *)
Fixpoint get (k : K) (d : list (K * V)) : option V :=
  match d with
  | [] => None
  | (k', v) :: d' => if decide (k = k') then Some v else get k d'
  end.

(** [k in d] *)
Definition contains (k : K) (d : list (K * V)) : bool :=
  match get k d with Some _ => true | None => false end.

(** [d[k] = v] *)
Fixpoint set (k : K) (v : V) (d : list (K * V)) : list (K * V) :=
  match d with
  | [] => [(k, v)]
  | (k', v') :: d' =>
      if decide (k = k') then (k', v) :: d' else (k', v') :: set k v d'
  end.

(** [d.keys()], [d.values()] *)
Definition keys (d : list (K * V)) : list K := fst <$> d.
Definition values (d : list (K * V)) : list V := snd <$> d.

End ops.
End PyDict.

Abbreviation pydict K V := (list (K * V)).

(* ===================================================================== *)
(** * Exceptions and effects *)
(* ===================================================================== *)

(** A raised [Exception]; [str(e)] is its message. *)
Inductive exn := Exception (msg : pystr).

Definition exn_str (e : exn) : pystr := match e with Exception m => m end.

(** [KeyError(k)] for a string key: [str(e)] is the key between quotes. *)
Definition KeyError (k : string) : exn := Exception (py "'" ++ py k ++ py "'").

Inductive result (A : Type) :=
| Return (a : A)
| Raise (e : exn).
Arguments Return {A} a.
Arguments Raise {A} e.

(** Computations that read and write a state [S] and may raise. *)
Definition M (S A : Type) : Type := S -> result A * S.

Definition ret {S A} (a : A) : M S A := fun s => (Return a, s).

Definition raise {S A} (e : exn) : M S A := fun s => (Raise e, s).

Definition bind {S A B} (m : M S A) (k : A -> M S B) : M S B :=
  fun s =>
    match m s with
    | (Return a, s') => k a s'
    | (Raise e, s') => (Raise e, s')
    end.

(** [try: m  except Exception as e: h e] *)
Definition try_except {S A} (m : M S A) (h : exn -> M S A) : M S A :=
  fun s =>
    match m s with
    | (Return a, s') => (Return a, s')
    | (Raise e, s') => h e s'
    end.

(** [d[k]] on an optional field: a missing key raises [KeyError]. *)
Definition getitem {S A} (k : string) (o : option A) : M S A :=
  match o with
  | Some a => ret a
  | None => raise (KeyError k)
  end.

#[global] Instance M_ret {S} : MRet (M S) := @ret S.
#[global] Instance M_bind {S} : MBind (M S) := fun A B k m => bind m k.

(* ===================================================================== *)
(** * schemas.py *)
(* ===================================================================== *)

Record ContextPoint := {
  cp_fact : pystr;
  cp_source : pystr
}.

Record StructuredContext := {
  context_by_slide : pydict pystr (list ContextPoint)
}.

Record SlidePlan := {
  plan_title : pystr;
  overview_title : pystr;
  agenda_points : list pystr;
  key_points : list pystr;
  conclusion_title : pystr
}.

(** [references] is [Optional[List[str]]]: [None] is a possible value. *)
Record SlideContent := {
  title : pystr;
  bullets : list pystr;
  references : option (list pystr)
}.

(** The values held by a search-result record.  Python's [==] on them is
    Leibniz equality here, and all of them are hashable. *)
Inductive value :=
| VStr (s : pystr)
| VInt (z : Z)
| VNone.

#[global] Instance value_eq_dec : EqDecision value.
Proof. solve_decision. Defined.

(** One search result: a [dict] from field names to values. *)
Abbreviation record := (pydict pystr value).

(** [GraphState] is a [TypedDict]: a key is present once the caller or a
    node has written it.  A node returns a partial state, merged into the
    running one key by key. *)
Record GraphState := {
  topic : option pystr;
  presenter_name : option pystr;
  sub_queries : option (list pystr);
  search_results : option (list record);
  slide_plan : option SlidePlan;
  structured_context : option StructuredContext;
  slide_contents : option (list SlideContent);
  presentation_path : option pystr;
  template_name : option pystr;
  error : option pystr
}.

(* ===================================================================== *)
(** * presentation.py: the deck document *)
(* ===================================================================== *)

(** What the renderer writes through python-pptx, as data.  Lengths given
    as [Inches(x)] are kept in hundredths of an inch, [Pt(n)] as [n], and a
    line spacing as a percentage. *)

Inductive RGBColor := RGB (r g b : Z).

Inductive alignment := PP_ALIGN_LEFT | PP_ALIGN_CENTER.

Inductive shape_kind := TEXT_BOX | ROUNDED_RECTANGLE.

Record Font := {
  font_name : option pystr;
  font_size : option Z;
  font_bold : option bool;
  font_underline : option bool;
  font_color : option RGBColor
}.

Record Run := {
  run_text : pystr;
  run_font : Font;
  run_hyperlink : option pystr
}.

(** What a paragraph holds, in order: runs and line breaks. *)
Inductive Inline :=
| TextRun (r : Run)
| LineBreak.

Record Paragraph := {
  p_content : list Inline;
  p_alignment : option alignment;
  p_line_spacing : option Z;
  p_space_after : option Z;
  p_level : nat;
  p_font : Font
}.

Record TextFrame := {
  tf_word_wrap : option bool;
  tf_anchor_middle : bool;
  tf_paragraphs : list Paragraph
}.

Record Shape := {
  sh_kind : shape_kind;
  sh_left : Z;
  sh_top : Z;
  sh_width : Z;
  sh_height : Z;
  sh_fill : option RGBColor;
  sh_line_hidden : bool;
  sh_text_frame : TextFrame
}.

Record Slide := {
  sl_background : RGBColor;
  sl_shapes : list Shape
}.

Record Presentation := {
  slide_width : Z;
  slide_height : Z;
  slides : list Slide
}.

(** [paragraph.runs]: the runs of the paragraph, without its line breaks. *)
Definition p_runs (p : Paragraph) : list Run :=
  omap (fun x => match x with TextRun r => Some r | LineBreak => None end)
       (p_content p).

(** The files written so far, by path. *)
Abbreviation Disk := (pydict pystr Presentation).

Definition no_font : Font :=
  {| font_name := None; font_size := None; font_bold := None;
     font_underline := None; font_color := None |}.

(** [p.add_run()] followed by [run.text = s] *)
Definition plain_run (s : pystr) : Run :=
  {| run_text := s; run_font := no_font; run_hyperlink := None |}.

(** The single empty paragraph of a fresh text frame. *)
Definition new_paragraph : Paragraph :=
  {| p_content := []; p_alignment := None; p_line_spacing := None;
     p_space_after := None; p_level := 0; p_font := no_font |}.

(** [re.split("\n|\v", text)]: the text cut at every line feed and every
    vertical tab; [pending] is the text read since the last cut. *)
Fixpoint split_breaks (pending s : pystr) : list pystr :=
  match s with
  | [] => [pending]
  | c :: s' =>
      if ((c =? 10) || (c =? 11))%N then pending :: split_breaks [] s'
      else split_breaks (pending ++ [c]) s'
  end.

(** The loop of python-pptx's [append_text] over the pieces: a line break
    before every piece but the first, a run for every piece that is not
    empty. *)
Fixpoint append_pieces (idx : nat) (pieces : list pystr) : list Inline :=
  match pieces with
  | [] => []
  | r_str :: rest =>
      (match idx with O => [] | S _ => [LineBreak] end)
      ++ (match r_str with [] => [] | _ => [TextRun (plain_run r_str)] end)
      ++ append_pieces (S idx) rest
  end.

(** [p.text = s]: the paragraph is cleared and the text appended. *)
Definition paragraph_text (s : pystr) : list Inline :=
  append_pieces 0 (split_breaks [] s).

(** [run.hyperlink.address = url]: an empty address sets no hyperlink. *)
Definition hyperlink_address (url : pystr) : option pystr :=
  match url with
  | [] => None
  | _ => Some url
  end.

(** [shapes.add_textbox(left, top, width, height)] with its text frame *)
Definition textbox (l t w h : Z) (tf : TextFrame) : Shape :=
  {| sh_kind := TEXT_BOX; sh_left := l; sh_top := t; sh_width := w;
     sh_height := h; sh_fill := None; sh_line_hidden := false;
     sh_text_frame := tf |}.

(* ===================================================================== *)
(** * presentation.py: themes *)
(* ===================================================================== *)

Definition THEMES : pydict pystr (pydict pystr RGBColor) :=
  [ (py "Minimalist_Dark",
      [ (py "background", RGB 18 18 18); (py "primary", RGB 240 240 240);
        (py "secondary", RGB 0 150 255); (py "accent", RGB 130 130 130) ]);
    (py "Business_Corporate",
      [ (py "background", RGB 245 245 245); (py "primary", RGB 10 30 60);
        (py "secondary", RGB 0 123 255); (py "accent", RGB 108 117 125) ]);
    (py "Education_Creative",
      [ (py "background", RGB 255 253 248); (py "primary", RGB 50 50 50);
        (py "secondary", RGB 255 110 60); (py "accent", RGB 120 120 120) ]);
    (py "Historical_Vintage",
      [ (py "background", RGB 245 245 220); (py "primary", RGB 80 50 20);
        (py "secondary", RGB 139 69 19); (py "accent", RGB 160 82 45) ]);
    (py "Technology_Futuristic",
      [ (py "background", RGB 10 0 25); (py "primary", RGB 0 255 127);
        (py "secondary", RGB 190 70 255); (py "accent", RGB 105 105 105) ]);
    (py "Environmental_Natural",
      [ (py "background", RGB 240 255 240); (py "primary", RGB 0 80 0);
        (py "secondary", RGB 34 139 34); (py "accent", RGB 107 142 35) ]);
    (py "default",
      [ (py "background", RGB 255 255 255); (py "primary", RGB 0 0 0);
        (py "secondary", RGB 100 100 100); (py "accent", RGB 150 150 150) ])
  ].

Definition THEME_FONTS : pydict pystr (pydict pystr pystr) :=
  [ (py "Minimalist_Dark",
      [ (py "title", py "Segoe UI"); (py "body", py "Calibri") ]);
    (py "Business_Corporate",
      [ (py "title", py "Arial"); (py "body", py "Helvetica") ]);
    (py "Education_Creative",
      [ (py "title", py "Century Gothic"); (py "body", py "Trebuchet MS") ]);
    (py "Historical_Vintage",
      [ (py "title", py "Garamond"); (py "body", py "Georgia") ]);
    (py "Technology_Futuristic",
      [ (py "title", py "Tw Cen MT"); (py "body", py "Verdana") ]);
    (py "Environmental_Natural",
      [ (py "title", py "Rockwell"); (py "body", py "Calibri") ]);
    (py "default",
      [ (py "title", py "Segoe UI"); (py "body", py "Calibri") ])
  ].

Definition OUTPUT_DIR : pystr := py "outputs".

(** The six locals bound at the top of [create_presentation_file]. *)
Record Style := {
  background_color : RGBColor;
  primary_color : RGBColor;
  secondary_color : RGBColor;
  accent_color : RGBColor;
  title_font : pystr;
  body_font : pystr
}.

(** [d.get(k, default)] *)
Definition get_default {V} (k : pystr) (d : pydict pystr V) (default : V) : V :=
  match PyDict.get k d with Some v => v | None => default end.

(** Lines 83-91.  [THEMES["default"]] is an argument of [.get], so it is
    looked up whatever [template_name] is; every subscript may raise. *)
Definition resolve_theme {S} (template_name : pystr) : M S Style :=
  default_theme ← getitem "default" (PyDict.get (py "default") THEMES);
  let theme := get_default template_name THEMES default_theme in
  default_fonts ← getitem "default" (PyDict.get (py "default") THEME_FONTS);
  let fonts := get_default template_name THEME_FONTS default_fonts in
  background ← getitem "background" (PyDict.get (py "background") theme);
  primary ← getitem "primary" (PyDict.get (py "primary") theme);
  secondary ← getitem "secondary" (PyDict.get (py "secondary") theme);
  accent ← getitem "accent" (PyDict.get (py "accent") theme);
  title_f ← getitem "title" (PyDict.get (py "title") fonts);
  body_f ← getitem "body" (PyDict.get (py "body") fonts);
  mret {| background_color := background; primary_color := primary;
          secondary_color := secondary; accent_color := accent;
          title_font := title_f; body_font := body_f |}.

(* ===================================================================== *)
(** * presentation.py: the two regular expressions *)
(* ===================================================================== *)

(** The character class <<[:\-–]>>. *)
Definition is_title_delim (c : N) : bool :=
  ((c =? COLON) || (c =? HYPHEN) || (c =? EN_DASH))%N.

(** Leftmost match of the class: the text before it and the text after. *)
Fixpoint re_search_delim (s : pystr) : option (pystr * pystr) :=
  match s with
  | [] => None
  | c :: s' =>
      if is_title_delim c then Some ([], s')
      else match re_search_delim s' with
           | Some (head, tail) => Some (c :: head, tail)
           | None => None
           end
  end.

(** [re.split(r'[:\-–]', s, 1)] (line 145) *)
Definition re_split_title (s : pystr) : list pystr :=
  match re_search_delim s with
  | Some (head, tail) => [head; tail]
  | None => [s]
  end.

Definition BOLD_MARK : pystr := py "**".
Definition UNDERLINE_MARK : pystr := py "__".

(** The lazy <<.*?>> followed by the closing marker, read from the start of
    [s]: the text it consumes, closing marker included.  The dot does not
    match a newline. *)
Fixpoint lazy_until (mark s : pystr) : option pystr :=
  if startswith mark s then Some mark
  else match s with
       | [] => None
       | c :: s' =>
           if (c =? NEWLINE)%N then None
           else match lazy_until mark s' with
                | Some m => Some (c :: m)
                | None => None
                end
       end.

(** One alternative <<mark.*?mark>> anchored at the start of [s]. *)
Definition match_marked (mark s : pystr) : option pystr :=
  if startswith mark s then
    match lazy_until mark (drop (length mark) s) with
    | Some m => Some (mark ++ m)
    | None => None
    end
  else None.

(** The pattern <<\*\*.*?\*\*|__.*?__>> anchored at the start of [s]: the
    first alternative that matches wins. *)
Definition re_match_markup (s : pystr) : option pystr :=
  match match_marked BOLD_MARK s with
  | Some m => Some m
  | None => match_marked UNDERLINE_MARK s
  end.

(** [re.split] with one capturing group around the whole pattern: the text
    between matches alternates with the matched groups.  [pending] is the
    text read since the last match, [skip] counts the characters of the
    current match still to be passed over. *)
Fixpoint re_split_aux (skip : nat) (pending s : pystr) : list pystr :=
  match s with
  | [] => [pending]
  | c :: s' =>
      match skip with
      | S k => re_split_aux k pending s'
      | O =>
          match re_match_markup s with
          | Some m => pending :: m :: re_split_aux (length m - 1) [] s'
          | None => re_split_aux 0 (pending ++ [c]) s'
          end
      end
  end.

(** [re.split(r'(\*\*.*?\*\*|__.*?__)', s)] (line 172) *)
Definition re_split_markup (s : pystr) : list pystr := re_split_aux 0 [] s.

(* ===================================================================== *)
(** * presentation.py: create_presentation_file *)
(* ===================================================================== *)

Section renderer.

(** [str.upper] and [str.isalnum] follow the Unicode character database;
    the renderer is parametric in them. *)
Variable upper : pystr -> pystr.
Variable isalnum : N -> bool.

Variable style : Style.

(** Lines 97-123: the title slide. *)
Definition title_slide (topic presenter_name : pystr)
    (slide_contents : list SlideContent) : Slide :=
  let title_text :=
    match slide_contents with
    | first :: _ => title first
    | [] => topic
    end in
  let run :=
    {| run_text := truncate 60 title_text;
       run_font := {| font_name := Some (title_font style);
                      font_size := Some 48%Z; font_bold := Some true;
                      font_underline := None;
                      font_color := Some (primary_color style) |};
       run_hyperlink := None |} in
  let p :=
    {| p_content := [TextRun run]; p_alignment := Some PP_ALIGN_CENTER;
       p_line_spacing := Some 120%Z; p_space_after := None; p_level := 0;
       p_font := no_font |} in
  let title_box :=
    textbox 100 200 1133 250
      {| tf_word_wrap := Some true; tf_anchor_middle := true;
         tf_paragraphs := [p] |} in
  let p_sub :=
    {| p_content := paragraph_text (py "Presented by " ++ presenter_name);
       p_alignment := Some PP_ALIGN_CENTER;
       p_line_spacing := None; p_space_after := None; p_level := 0;
       p_font := {| font_name := Some (body_font style);
                    font_size := Some 20%Z; font_bold := None;
                    font_underline := None;
                    font_color := Some (accent_color style) |} |} in
  let subtitle_box :=
    textbox 70 480 1163 100
      {| tf_word_wrap := None; tf_anchor_middle := false;
         tf_paragraphs := [p_sub] |} in
  {| sl_background := background_color style;
     sl_shapes := [title_box; subtitle_box] |}.

(** Lines 146-151 and 154-159: a run of a content slide's title. *)
Definition title_run (text : pystr) (color : RGBColor) : Run :=
  {| run_text := text;
     run_font := {| font_name := Some (title_font style);
                    font_size := Some 28%Z; font_bold := Some true;
                    font_underline := None; font_color := Some color |};
     run_hyperlink := None |}.

(** Lines 145-159: the runs of a content slide's title. *)
Definition title_runs (slide_title : pystr) : list Run :=
  let title_parts := re_split_title slide_title in
  match title_parts with
  | [] => []
  | part0 :: rest =>
      title_run (strip part0) (primary_color style) ::
      match rest with
      | part1 :: _ =>
          [title_run (py " - " ++ strip part1) (secondary_color style)]
      | [] => []
      end
  end.

(** Lines 174-188: the run added for one segment of a bullet. *)
Definition segment_run (seg : pystr) : Run :=
  let base (text : pystr) (bold underline : option bool) (color : RGBColor) :=
    {| run_text := text;
       run_font := {| font_name := Some (body_font style);
                      font_size := Some 22%Z; font_bold := bold;
                      font_underline := underline;
                      font_color := Some color |};
       run_hyperlink := None |} in
  if startswith BOLD_MARK seg && endswith BOLD_MARK seg then
    base (slice_2_m2 seg) (Some true) None (secondary_color style)
  else if startswith UNDERLINE_MARK seg && endswith UNDERLINE_MARK seg then
    base (slice_2_m2 seg) None (Some true) (primary_color style)
  else
    base seg None None (primary_color style).

(** Lines 171-172: the tokenizer applied to one bullet. *)
Definition bullet_segments (bullet_text : pystr) : list pystr :=
  re_split_markup (strip bullet_text).

(** Lines 174-188: one run per segment. *)
Definition bullet_runs (bullet_text : pystr) : list Run :=
  map segment_run (bullet_segments bullet_text).

(** Lines 166-188: the paragraph of one bullet. *)
Definition bullet_paragraph (bullet_text : pystr) : Paragraph :=
  {| p_content := TextRun <$> bullet_runs bullet_text;
     p_alignment := None;
     p_line_spacing := Some 130%Z;
     p_space_after := Some 12%Z;
     p_level := if startswith (py "  ") bullet_text then 1 else 0;
     p_font := no_font |}.

(** Lines 165-166: the first bullet reuses the frame's own paragraph, so a
    slide without bullets keeps that paragraph, empty. *)
Definition body_paragraphs (bullet_list : list pystr) : list Paragraph :=
  match bullet_list with
  | [] => [new_paragraph]
  | _ => map bullet_paragraph bullet_list
  end.

(** Lines 200-208: the runs after the "Sources: " label. *)
Fixpoint reference_runs (idx : nat) (urls : list pystr) : list Run :=
  match urls with
  | [] => []
  | url :: rest =>
      (match idx with O => [] | S _ => [plain_run (py " | ")] end) ++
      {| run_text := truncate 40 url;
         run_font := {| font_name := None; font_size := Some 9%Z;
                        font_bold := None; font_underline := None;
                        font_color := Some (accent_color style) |};
         run_hyperlink := hyperlink_address url |} ::
      reference_runs (S idx) rest
  end.

(** Lines 190-208: the reference box, present when [references] is a
    non-empty list. *)
Definition reference_shapes (refs : option (list pystr)) : list Shape :=
  match refs with
  | None | Some [] => []
  | Some urls =>
      let p_ref :=
        {| p_content :=
             paragraph_text (py "Sources: ")
             ++ (TextRun <$> reference_runs 0 (take 2 urls));
           p_alignment := None; p_line_spacing := None;
           p_space_after := None; p_level := 0;
           p_font := {| font_name := Some (body_font style);
                        font_size := Some 9%Z; font_bold := Some true;
                        font_underline := None;
                        font_color := Some (accent_color style) |} |} in
      [textbox 80 620 820 80
         {| tf_word_wrap := None; tf_anchor_middle := false;
            tf_paragraphs := [p_ref] |}]
  end.

(** [sum(secondary_color) < 382] *)
Definition is_dark_bg (c : RGBColor) : bool :=
  match c with RGB r g b => (r + g + b <? 382)%Z end.

(** Lines 210-226: the page badge of the slide enumerated as [i]. *)
Definition page_widget (i : nat) : Shape :=
  let run_page :=
    {| run_text := py "Page No. " ++ format_02d (i + 1);
       run_font := {| font_name := Some (body_font style);
                      font_size := Some 11%Z; font_bold := Some true;
                      font_underline := None;
                      font_color :=
                        Some (if is_dark_bg (secondary_color style)
                              then RGB 255 255 255 else RGB 0 0 0) |};
       run_hyperlink := None |} in
  {| sh_kind := ROUNDED_RECTANGLE;
     sh_left := 1050; sh_top := 660; sh_width := 180; sh_height := 40;
     sh_fill := Some (secondary_color style);
     sh_line_hidden := true;
     sh_text_frame :=
       {| tf_word_wrap := None; tf_anchor_middle := false;
          tf_paragraphs :=
            [{| p_content := [TextRun run_page];
                p_alignment := Some PP_ALIGN_CENTER;
                p_line_spacing := None; p_space_after := None;
                p_level := 0; p_font := no_font |}] |} |}.

(** Lines 127-226: the body of the loop over [slide_contents[1:]]. *)
Definition content_slide (topic : pystr) (i : nat) (slide_data : SlideContent)
    : Slide :=
  let header_box :=
    textbox 50 20 1200 50
      {| tf_word_wrap := None; tf_anchor_middle := false;
         tf_paragraphs :=
           [{| p_content := paragraph_text (upper topic);
               p_alignment := None;
               p_line_spacing := None; p_space_after := None; p_level := 0;
               p_font := {| font_name := Some (body_font style);
                            font_size := Some 12%Z; font_bold := Some true;
                            font_underline := None;
                            font_color := Some (accent_color style) |} |}] |} in
  let title_box :=
    textbox 50 70 1200 100
      {| tf_word_wrap := Some true; tf_anchor_middle := false;
         tf_paragraphs :=
           [{| p_content := TextRun <$> title_runs (title slide_data);
               p_alignment := Some PP_ALIGN_LEFT;
               p_line_spacing := None; p_space_after := None; p_level := 0;
               p_font := no_font |}] |} in
  let body_box :=
    textbox 50 160 1200 440
      {| tf_word_wrap := Some true; tf_anchor_middle := false;
         tf_paragraphs := body_paragraphs (bullets slide_data) |} in
  {| sl_background := background_color style;
     sl_shapes :=
       [header_box; title_box; body_box]
       ++ reference_shapes (references slide_data)
       ++ [page_widget i] |}.

(** Line 126: [for i, slide_data in enumerate(..., start=i)]. *)
Fixpoint content_slides (topic : pystr) (i : nat) (rest : list SlideContent)
    : list Slide :=
  match rest with
  | [] => []
  | slide_data :: rest' =>
      content_slide topic i slide_data :: content_slides topic (S i) rest'
  end.

(** Lines 230-248: the closing slide. *)
Definition thank_you_slide : Slide :=
  let centered (text font : pystr) (size : Z) (bold : option bool)
      (color : RGBColor) :=
    {| p_content := paragraph_text text;
       p_alignment := Some PP_ALIGN_CENTER;
       p_line_spacing := None; p_space_after := None; p_level := 0;
       p_font := {| font_name := Some font; font_size := Some size;
                    font_bold := bold; font_underline := None;
                    font_color := Some color |} |} in
  let thank_box :=
    textbox 100 250 1133 200
      {| tf_word_wrap := None; tf_anchor_middle := false;
         tf_paragraphs :=
           [centered (py "Thank You") (title_font style) 54%Z (Some true)
                     (secondary_color style)] |} in
  let questions_box :=
    textbox 100 480 1133 100
      {| tf_word_wrap := None; tf_anchor_middle := false;
         tf_paragraphs :=
           [centered (py "Questions & Discussion") (body_font style) 20%Z
                     None (accent_color style)] |} in
  {| sl_background := background_color style;
     sl_shapes := [thank_box; questions_box] |}.

(** Lines 93-248: the deck handed to [prs.save]. *)
Definition build_presentation (topic presenter_name : pystr)
    (slide_contents : list SlideContent) : Presentation :=
  {| slide_width := 1333; slide_height := 750;
     slides :=
       title_slide topic presenter_name slide_contents
       :: content_slides topic 1 (drop 1 slide_contents)
       ++ [thank_you_slide] |}.

(** Lines 250-251 *)
Definition output_path (topic template_name : pystr) : pystr :=
  let safe_topic :=
    rstrip (filter (fun x => isalnum x = true ∨ x ∈ py " -_") topic) in
  OUTPUT_DIR ++ py "/" ++ safe_topic ++ py "_" ++ template_name ++ py ".pptx".

End renderer.

(** [prs.save(file_path)] writes through the operating system, which may
    refuse the path (a directory that does not exist, a name that is too
    long): [write_error file_path] is the exception raised then, and nothing
    is written.  Otherwise the file at that path now holds the deck. *)
Definition save (write_error : pystr -> option exn) (file_path : pystr)
    (prs : Presentation) : M Disk unit :=
  fun disk =>
    match write_error file_path with
    | Some e => (Raise e, disk)
    | None => (Return tt, PyDict.set file_path prs disk)
    end.

Definition create_presentation_file (upper : pystr -> pystr)
    (isalnum : N -> bool) (write_error : pystr -> option exn)
    (topic presenter_name template_name : pystr)
    (slide_contents : list SlideContent) : M Disk pystr :=
  style ← resolve_theme template_name;
  let prs := build_presentation upper style topic presenter_name slide_contents in
  let file_path := output_path isalnum topic template_name in
  _ ← save write_error file_path prs;
  mret file_path.

(* ===================================================================== *)
(** * graph.py: state updates *)
(* ===================================================================== *)

(** The dict a node returns: only the keys it writes are present. *)
Definition no_update : GraphState :=
  {| topic := None; presenter_name := None; sub_queries := None;
     search_results := None; slide_plan := None; structured_context := None;
     slide_contents := None; presentation_path := None;
     template_name := None; error := None |}.

Definition with_sub_queries (v : list pystr) (u : GraphState) : GraphState :=
  {| topic := topic u; presenter_name := presenter_name u;
     sub_queries := Some v; search_results := search_results u;
     slide_plan := slide_plan u; structured_context := structured_context u;
     slide_contents := slide_contents u;
     presentation_path := presentation_path u;
     template_name := template_name u; error := error u |}.

Definition with_search_results (v : list record) (u : GraphState) : GraphState :=
  {| topic := topic u; presenter_name := presenter_name u;
     sub_queries := sub_queries u; search_results := Some v;
     slide_plan := slide_plan u; structured_context := structured_context u;
     slide_contents := slide_contents u;
     presentation_path := presentation_path u;
     template_name := template_name u; error := error u |}.

Definition with_slide_plan (v : SlidePlan) (u : GraphState) : GraphState :=
  {| topic := topic u; presenter_name := presenter_name u;
     sub_queries := sub_queries u; search_results := search_results u;
     slide_plan := Some v; structured_context := structured_context u;
     slide_contents := slide_contents u;
     presentation_path := presentation_path u;
     template_name := template_name u; error := error u |}.

Definition with_structured_context (v : StructuredContext) (u : GraphState)
    : GraphState :=
  {| topic := topic u; presenter_name := presenter_name u;
     sub_queries := sub_queries u; search_results := search_results u;
     slide_plan := slide_plan u; structured_context := Some v;
     slide_contents := slide_contents u;
     presentation_path := presentation_path u;
     template_name := template_name u; error := error u |}.

Definition with_slide_contents (v : list SlideContent) (u : GraphState)
    : GraphState :=
  {| topic := topic u; presenter_name := presenter_name u;
     sub_queries := sub_queries u; search_results := search_results u;
     slide_plan := slide_plan u; structured_context := structured_context u;
     slide_contents := Some v;
     presentation_path := presentation_path u;
     template_name := template_name u; error := error u |}.

Definition with_presentation_path (v : pystr) (u : GraphState) : GraphState :=
  {| topic := topic u; presenter_name := presenter_name u;
     sub_queries := sub_queries u; search_results := search_results u;
     slide_plan := slide_plan u; structured_context := structured_context u;
     slide_contents := slide_contents u;
     presentation_path := Some v;
     template_name := template_name u; error := error u |}.

Definition with_error (v : pystr) (u : GraphState) : GraphState :=
  {| topic := topic u; presenter_name := presenter_name u;
     sub_queries := sub_queries u; search_results := search_results u;
     slide_plan := slide_plan u; structured_context := structured_context u;
     slide_contents := slide_contents u;
     presentation_path := presentation_path u;
     template_name := template_name u; error := Some v |}.

(** A key of the update overwrites the same key of the state. *)
Definition overwrite {A} (old new : option A) : option A :=
  match new with Some _ => new | None => old end.

Definition merge (st u : GraphState) : GraphState :=
  {| topic := overwrite (topic st) (topic u);
     presenter_name := overwrite (presenter_name st) (presenter_name u);
     sub_queries := overwrite (sub_queries st) (sub_queries u);
     search_results := overwrite (search_results st) (search_results u);
     slide_plan := overwrite (slide_plan st) (slide_plan u);
     structured_context :=
       overwrite (structured_context st) (structured_context u);
     slide_contents := overwrite (slide_contents st) (slide_contents u);
     presentation_path :=
       overwrite (presentation_path st) (presentation_path u);
     template_name := overwrite (template_name st) (template_name u);
     error := overwrite (error st) (error u) |}.

(* ===================================================================== *)
(** * graph.py: the external services *)
(* ===================================================================== *)

(** A prompt is an f-string: a fixed template and the values interpolated
    into it.  The constructor names the template, its arguments are the
    interpolated values in the order they are evaluated. *)
Inductive Prompt :=
| QueryPrompt (topic : pystr)
| PlanPrompt (topic context : pystr)
| FactsPrompt (topic slide_titles context_str : pystr)
| SlidePrompt (slide_title topic context_str : pystr)
| ConclusionPrompt (conclusion_title topic : pystr) (contents : list value).

(** The local class [Fact] of [summarize_results]. *)
Record Fact := {
  fact : pystr;
  source : pystr;
  slide_title : pystr
}.

(** One element of the tool's "results" list: a dict or something else. *)
Inductive item :=
| ItemDict (d : record)
| ItemOther (v : value).

(** What [search_tool.invoke] returns: a dict, which may have a "results"
    key holding a list, or a value that is not a dict. *)
Inductive tool_output :=
| OutDict (results : option (list item))
| OutOther.

(** [str(v)], as an f-string formats a value *)
Definition value_str (v : value) : pystr :=
  match v with
  | VStr s => s
  | VInt z =>
      (if (z <? 0)%Z then py "-" else []) ++ uint_codes (N.to_uint (Z.abs_N z))
  | VNone => py "None"
  end.

(* ===================================================================== *)
(** * graph.py: the nodes *)
(* ===================================================================== *)

Definition TypeError : exn := Exception (py "TypeError").

(** [res[k]] on a search-result record *)
Definition getkey {S} (k : string) (res : record) : M S value :=
  getitem k (PyDict.get (py k) res).

(** An element handed to [str.join] must be a [str]. *)
Definition as_str {S} (v : value) : M S pystr :=
  match v with
  | VStr s => mret s
  | _ => raise TypeError
  end.

(** Line 95: [isinstance(res, dict) and "url" in res] *)
Definition is_valid_result (res : item) : option record :=
  match res with
  | ItemDict d => if PyDict.contains (py "url") d then Some d else None
  | ItemOther _ => None
  end.

Definition valid_results (results : list item) : list record :=
  omap is_valid_result results.

(** Line 104: the comprehension [{res["url"]: res for res in all_results}],
    filling the dict [d] in input order. *)
Fixpoint url_dict {S} (all_results : list record) (d : pydict value record)
    : M S (pydict value record) :=
  match all_results with
  | [] => mret d
  | res :: rest =>
      url ← getkey "url" res;
      url_dict rest (PyDict.set url res d)
  end.

(** Line 210: [{title: [] for title in slide_titles}] *)
Definition empty_buckets (slide_titles : list pystr)
    : pydict pystr (list ContextPoint) :=
  foldl (fun d t => PyDict.set t [] d) [] slide_titles.

(** Line 213: [ContextPoint(fact=fact.fact, source=fact.source)] *)
Definition context_point (f : Fact) : ContextPoint :=
  {| cp_fact := fact f; cp_source := source f |}.

(** Lines 212-213: the body of the loop over [facts]. *)
Definition bucket_fact (context_by_slide : pydict pystr (list ContextPoint))
    (f : Fact) : pydict pystr (list ContextPoint) :=
  match PyDict.get (slide_title f) context_by_slide with
  | Some bucket =>
      PyDict.set (slide_title f) (bucket ++ [context_point f])
        context_by_slide
  | None => context_by_slide
  end.

(** Lines 210-213 *)
Definition bucket_facts (slide_titles : list pystr) (facts : list Fact)
    : pydict pystr (list ContextPoint) :=
  foldl bucket_fact (empty_buckets slide_titles) facts.

(** Line 245 *)
Definition context_line (p : ContextPoint) : pystr :=
  py "- " ++ cp_fact p ++ py " [Source: " ++ cp_source p ++ py "]".

Definition content_failed (slide_title : pystr) : SlideContent :=
  {| title := slide_title; bullets := [py "Content generation failed."];
     references := Some [] |}.

Definition summary_failed (conclusion_title : pystr) : SlideContent :=
  {| title := conclusion_title; bullets := [py "Summary generation failed."];
     references := Some [] |}.

Section graph.

(** The state of the outside world the services answer from. *)
Context {World : Type}.

(** [llm.with_structured_output(T).invoke(prompt)], one oracle per target
    shape, and [search_tool.invoke({"query": query})].  Each may raise. *)
Variable llm_queries : Prompt -> M World (list pystr).
Variable llm_plan : Prompt -> M World SlidePlan.
Variable llm_facts : Prompt -> M World (option (list Fact)).
Variable llm_slide : Prompt -> M World SlideContent.
Variable search_tool : pystr -> M World tool_output.

Variable upper : pystr -> pystr.
Variable isalnum : N -> bool.

(** The exception, if any, with which the operating system refuses to
    write a file at a path. *)
Variable write_error : pystr -> option exn.

Definition expand_queries (state : GraphState) : M World GraphState :=
  topic ← getitem "topic" (topic state);
  try_except
    (queries ← llm_queries (QueryPrompt topic);
     mret (with_sub_queries queries no_update))
    (fun e =>
       mret (with_error (py "Failed to expand queries: " ++ exn_str e)
                        no_update)).

(** Lines 90-98: the loop over the queries; a failed search is skipped. *)
Fixpoint search_loop (queries : list pystr) (all_results : list record)
    : M World (list record) :=
  match queries with
  | [] => mret all_results
  | query :: rest =>
      all_results' ←
        try_except
          (result_dict ← search_tool query;
           match result_dict with
           | OutDict (Some results) =>
               mret (all_results ++ valid_results results)
           | _ => mret all_results
           end)
          (fun _ => mret all_results);
      search_loop rest all_results'
  end.

Definition web_search (state : GraphState) : M World GraphState :=
  queries ← getitem "sub_queries" (sub_queries state);
  all_results ← search_loop queries [];
  match all_results with
  | [] => mret (with_search_results [] no_update)
  | _ =>
      d ← url_dict all_results [];
      let unique_results := PyDict.values d in
      mret (with_search_results unique_results no_update)
  end.

Definition plan_content (state : GraphState) : M World GraphState :=
  topic ← getitem "topic" (topic state);
  let search_results := default [] (search_results state) in
  context ←
    match search_results with
    | [] => mret (py "General knowledge about " ++ topic ++ py ".")
    | _ =>
        contents ← mapM (getkey "content") search_results;
        lines ← mapM as_str contents;
        mret (join [NEWLINE] lines)
    end;
  try_except
    (plan ← llm_plan (PlanPrompt topic context);
     mret (with_slide_plan plan no_update))
    (fun e =>
       mret (with_error
               (py "Failed to generate a valid presentation plan: "
                ++ exn_str e)
               no_update)).

(** Line 181: one "Source: ... Content: ..." block per search result. *)
Definition source_block (res : record) : M World pystr :=
  url ← getkey "url" res;
  content ← getkey "content" res;
  mret (py "Source: " ++ value_str url ++ [NEWLINE]
        ++ py "Content: " ++ value_str content).

Definition summarize_results (state : GraphState) : M World GraphState :=
  topic ← getitem "topic" (topic state);
  search_results ← getitem "search_results" (search_results state);
  plan ← getitem "slide_plan" (slide_plan state);
  let slide_titles := overview_title plan :: key_points plan in
  blocks ← mapM source_block search_results;
  let context_str := join [NEWLINE] blocks in
  let prompt := FactsPrompt topic (join (py ", ") slide_titles) context_str in
  try_except
    (fact_list_obj ← llm_facts prompt;
     let facts := default [] fact_list_obj in
     let context_by_slide := bucket_facts slide_titles facts in
     mret (with_structured_context
             {| context_by_slide := context_by_slide |} no_update))
    (fun e =>
       mret (with_structured_context {| context_by_slide := [] |}
               (with_error (py "Failed to generate structured summary.")
                           no_update))).


(** Lines 244-270: the prompt of one key-point slide. *)
Definition key_point_prompt (topic : pystr)
    (structured_context_map : pydict pystr (list ContextPoint))
    (slide_title : pystr) : Prompt :=
  let slide_specific_context :=
    get_default slide_title structured_context_map [] in
  let context_str :=
    join [NEWLINE] (context_line <$> slide_specific_context) in
  SlidePrompt slide_title topic context_str.

(** Lines 242-275: the loop over the key points. *)
Fixpoint key_point_loop (topic : pystr)
    (structured_context_map : pydict pystr (list ContextPoint))
    (titles : list pystr) (all_slide_contents : list SlideContent)
    : M World (list SlideContent) :=
  match titles with
  | [] => mret all_slide_contents
  | slide_title :: rest =>
      let prompt := key_point_prompt topic structured_context_map slide_title in
      all_slide_contents' ←
        try_except
          (slide_content ← llm_slide prompt;
           mret (all_slide_contents ++ [slide_content]))
          (fun _ =>
             mret (all_slide_contents ++ [content_failed slide_title]));
      key_point_loop topic structured_context_map rest all_slide_contents'
  end.

Definition generate_slide_content (state : GraphState) : M World GraphState :=
  topic ← getitem "topic" (topic state);
  plan ← getitem "slide_plan" (slide_plan state);
  let structured_context_map :=
    match structured_context state with
    | Some structured_context_obj => context_by_slide structured_context_obj
    | None => []
    end in
  let all_slide_contents :=
    [ {| title := plan_title plan; bullets := []; references := Some [] |};
      {| title := overview_title plan; bullets := agenda_points plan;
         references := Some [] |} ] in
  all_slide_contents ←
    key_point_loop topic structured_context_map (key_points plan)
      all_slide_contents;
  search_results ← getitem "search_results" (search_results state);
  contents ← mapM (getkey "content") search_results;
  let prompt := ConclusionPrompt (conclusion_title plan) topic contents in
  all_slide_contents ←
    try_except
      (conclusion_content ← llm_slide prompt;
       mret (all_slide_contents ++ [conclusion_content]))
      (fun _ =>
         mret (all_slide_contents ++ [summary_failed (conclusion_title plan)]));
  mret (with_slide_contents all_slide_contents no_update).

Definition create_presentation (state : GraphState) : M Disk GraphState :=
  try_except
    (topic ← getitem "topic" (topic state);
     presenter_name ← getitem "presenter_name" (presenter_name state);
     template_name ← getitem "template_name" (template_name state);
     slide_contents ← getitem "slide_contents" (slide_contents state);
     path ← create_presentation_file upper isalnum write_error topic
               presenter_name template_name slide_contents;
     mret (with_presentation_path path no_update))
    (fun e =>
       mret (with_error (py "Failed to create the .pptx file: " ++ exn_str e)
                        no_update)).

(* ===================================================================== *)
(** * graph.py: the workflow *)
(* ===================================================================== *)

Inductive node :=
| EXPAND_QUERIES
| WEB_SEARCH
| PLAN_CONTENT
| SUMMARIZE_RESULTS
| GENERATE_SLIDE_CONTENT
| CREATE_PRESENTATION
| END.

#[global] Instance node_eq_dec : EqDecision node.
Proof. solve_decision. Defined.

(** Line 330 *)
Definition entry_point : node := EXPAND_QUERIES.

(** Lines 331-336, in the order of the [add_edge] calls. *)
Definition edges : pydict node node :=
  [ (EXPAND_QUERIES, WEB_SEARCH);
    (WEB_SEARCH, PLAN_CONTENT);
    (PLAN_CONTENT, SUMMARIZE_RESULTS);
    (SUMMARIZE_RESULTS, GENERATE_SLIDE_CONTENT);
    (GENERATE_SLIDE_CONTENT, CREATE_PRESENTATION);
    (CREATE_PRESENTATION, END) ].

Definition in_world {A} (m : M World A) : M (World * Disk) A :=
  fun '(w, d) => let '(r, w') := m w in (r, (w', d)).

Definition on_disk {A} (m : M Disk A) : M (World * Disk) A :=
  fun '(w, d) => let '(r, d') := m d in (r, (w, d')).

(** Lines 323-328: the function registered under each node name. *)
Definition node_action (n : node) (state : GraphState)
    : M (World * Disk) GraphState :=
  match n with
  | EXPAND_QUERIES => in_world (expand_queries state)
  | WEB_SEARCH => in_world (web_search state)
  | PLAN_CONTENT => in_world (plan_content state)
  | SUMMARIZE_RESULTS => in_world (summarize_results state)
  | GENERATE_SLIDE_CONTENT => in_world (generate_slide_content state)
  | CREATE_PRESENTATION => on_disk (create_presentation state)
  | END => mret no_update
  end.

(** One step of the compiled graph: run the node, merge what it returns
    into the state and follow the node's outgoing edge.  An exception that
    leaves the node ends the run. *)
Definition step (n : node) (state : GraphState)
    : M (World * Disk) (node * GraphState) :=
  update ← node_action n state;
  next ← getitem "edge" (PyDict.get n edges);
  mret (next, merge state update).

(** [app_graph.invoke(state)], started at node [n]; the graph has no cycle,
    and [fuel] bounds the number of steps. *)
Fixpoint run (fuel : nat) (n : node) (state : GraphState)
    : M (World * Disk) GraphState :=
  match n with
  | END => mret state
  | _ =>
      match fuel with
      | O => raise (Exception (py "recursion limit"))
      | S fuel' =>
          '(next, state') ← step n state;
          run fuel' next state'
      end
  end.

Definition app_graph (state : GraphState) : M (World * Disk) GraphState :=
  run (length edges) entry_point state.

End graph.

(* ===================================================================== *)
(** * Vocabulary of the statements *)
(* ===================================================================== *)

(** The URL of a search-result record, when it has one. *)
Definition url_of (res : record) : option value := PyDict.get (py "url") res.

(** The last record of [l] whose URL is [u]. *)
Definition last_with_url (u : value) (l : list record) : option record :=
  last (filter (fun res => url_of res = Some u) l).

(** The record has a "url" key. *)
Definition has_url (res : record) : Prop := is_Some (url_of res).

(** The dict [d] built from the records [seen] maps every URL to the last
    record seen with it, and nothing else. *)
Definition indexes (d : pydict value record) (seen : list record) : Prop :=
  NoDup (PyDict.keys d) ∧ ∀ u, PyDict.get u d = last_with_url u seen.

(** The slide appended after one model call: the answer, or the placeholder
    when the call raised. *)
Definition answer_or (placeholder : SlideContent) (r : result SlideContent)
    : SlideContent :=
  match r with
  | Return slide_content => slide_content
  | Raise _ => placeholder
  end.

(** A model whose [n]-th call answers [script n prompt]: the world is the
    number of calls made so far. *)
Definition scripted (script : nat -> Prompt -> result SlideContent)
    : Prompt -> M nat SlideContent :=
  fun prompt n => (script n prompt, S n).

(** The same model, except that call number [i] raises [e]. *)
Definition fail_at (i : nat) (e : exn)
    (script : nat -> Prompt -> result SlideContent)
    : nat -> Prompt -> result SlideContent :=
  fun n prompt => if decide (n = i) then Raise e else script n prompt.

(** How a run is set: bold, underlined or neither. *)
Inductive markup := Plain | Bold | Underline.

Definition run_kind (r : Run) : markup :=
  match font_bold (run_font r), font_underline (run_font r) with
  | Some true, _ => Bold
  | _, Some true => Underline
  | _, _ => Plain
  end.

(** The texts of all runs of a slide, shape by shape. *)
Definition slide_texts (sl : Slide) : list pystr :=
  concat ((λ sh, concat ((λ p, run_text <$> p_runs p)
                           <$> tf_paragraphs (sh_text_frame sh)))
            <$> sl_shapes sl).

(** [str.upper] and [str.isalnum] on ASCII text, to run the renderer on
    sample inputs. *)
Definition upper_ascii (s : pystr) : pystr :=
  (λ c, if (97 <=? c)%N && (c <=? 122)%N then (c - 32)%N else c) <$> s.

Definition isalnum_ascii (c : N) : bool :=
  ((48 <=? c) && (c <=? 57) || (65 <=? c) && (c <=? 90)
   || (97 <=? c) && (c <=? 122))%N.

(** The texts of the runs that [p.text = s] leaves in a paragraph: the
    pieces of [s] between line breaks that are not empty. *)
Definition text_lines (s : pystr) : list pystr :=
  filter (λ piece, piece ≠ []) (split_breaks [] s).

(** [FileNotFoundError] as [open] raises it for a path. *)
Definition FileNotFoundError (path : pystr) : exn :=
  Exception (py "[Errno 2] No such file or directory: '" ++ path ++ py "'").

(** An operating system that accepts every path. *)
Definition no_write_error : pystr -> option exn := fun _ => None.

(** An operating system in which the output directory has no
    sub-directory: a path with a slash after "outputs/" is refused. *)
Definition missing_directory : pystr -> option exn :=
  fun path =>
    if decide (47%N ∈ drop 8 path) then Some (FileNotFoundError path)
    else None.

(** A topic of more than sixty characters. *)
Definition long_topic : pystr :=
  py "Global Water Scarcity and the Future of Urban Water Management".

(** The style of the "default" theme. *)
Definition default_style : Style :=
  {| background_color := RGB 255 255 255; primary_color := RGB 0 0 0;
     secondary_color := RGB 100 100 100; accent_color := RGB 150 150 150;
     title_font := py "Segoe UI"; body_font := py "Calibri" |}.

(** Sample inputs. *)
Definition alpha_beta_bullet : pystr :=
  py "**Alpha** " ++ [EN_DASH] ++ py " __Beta__ gamma".

Definition sample_slide (t : string) : SlideContent :=
  {| title := py t; bullets := [py "**Key** point"]; references := None |}.

Definition seven_slides : list SlideContent :=
  [ sample_slide "Water Scarcity"; sample_slide "Overview";
    sample_slide "Causes - Why Water Runs Short";
    sample_slide "Impacts - Health and Migration";
    sample_slide "Responses - Policy and Technology";
    sample_slide "Outlook - The Next Decade";
    sample_slide "Takeaways - The Path Forward" ].

Definition sample_plan : SlidePlan :=
  {| plan_title := py "Water Scarcity";
     overview_title := py "Overview";
     agenda_points :=
       [ py "Causes - Why Water Runs Short";
         py "Impacts - Health and Migration";
         py "Responses - Policy and Technology";
         py "Outlook - The Next Decade" ];
     key_points :=
       [ py "Causes - Why Water Runs Short";
         py "Impacts - Health and Migration";
         py "Responses - Policy and Technology";
         py "Outlook - The Next Decade" ];
     conclusion_title := py "Takeaways - The Path Forward" |}.

Definition sample_result (url content : string) : record :=
  [ (py "url", VStr (py url)); (py "content", VStr (py content)) ].

Definition sample_state : GraphState :=
  {| topic := Some (py "Water Scarcity");
     presenter_name := Some (py "Asha");
     sub_queries := Some [ py "water scarcity causes";
                           py "water scarcity impacts" ];
     search_results :=
       Some [ sample_result "https://a.example/1" "third";
              sample_result "https://b.example/2" "second" ];
     slide_plan := Some sample_plan;
     structured_context := None;
     slide_contents := None;
     presentation_path := None;
     template_name := Some (py "default");
     error := None |}.


(** A search tool answering the first query with two records and a stray
    value, the second with a record repeating the first URL, and failing
    afterwards. *)
Definition sample_search_tool : pystr -> M nat tool_output :=
  fun query n =>
    (match n with
     | 0 => Return (OutDict (Some [ ItemDict (sample_result "https://a.example/1" "first");
                                    ItemOther VNone;
                                    ItemDict (sample_result "https://b.example/2" "second") ]))
     | 1 => Return (OutDict (Some [ ItemDict (sample_result "https://a.example/1" "third") ]))
     | _ => Raise (Exception (py "search failed"))
     end, S n).

(** A distillation answer with one fact for the overview, one for a title
    that is not in the plan and one for the first key point. *)
Definition sample_llm_facts : Prompt -> M nat (option (list Fact)) :=
  fun prompt n =>
    (Return (Some [ {| fact := py "A"; source := py "https://a.example/1";
                       slide_title := py "Overview" |};
                    {| fact := py "B"; source := py "https://b.example/2";
                       slide_title := py "Appendix" |};
                    {| fact := py "C"; source := py "https://a.example/1";
                       slide_title := py "Causes - Why Water Runs Short" |} ]),
     S n).

Definition failing_llm_facts : Prompt -> M nat (option (list Fact)) :=
  fun prompt n => (Raise (Exception (py "quota exceeded")), S n).

Definition failing_llm {A} : Prompt -> M nat A :=
  fun prompt n => (Raise (Exception (py "quota exceeded")), S n).

(** A model that answers every slide prompt with one bullet. *)
Definition sample_script : nat -> Prompt -> result SlideContent :=
  fun n prompt =>
    match prompt with
    | SlidePrompt t _ _ | ConclusionPrompt t _ _ =>
        Return {| title := t; bullets := [py "**Fact** - __detail__"];
                  references := None |}
    | _ => Raise (Exception (py "unexpected prompt"))
    end.

(** The number of edges from a node to [END]. *)
Definition distance (n : node) : nat :=
  match n with
  | EXPAND_QUERIES => 6
  | WEB_SEARCH => 5
  | PLAN_CONTENT => 4
  | SUMMARIZE_RESULTS => 3
  | GENERATE_SLIDE_CONTENT => 2
  | CREATE_PRESENTATION => 1
  | END => 0
  end.

(** The number of context points held by all buckets together. *)
Definition points (d : pydict pystr (list ContextPoint)) : nat :=
  sum_list (length <$> PyDict.values d).

(** A search tool whose [n]-th call answers [script n query]. *)
Definition scripted_search (script : nat -> pystr -> result tool_output)
    : pystr -> M nat tool_output :=
  fun query n => (script n query, S n).

(** The records one search call adds to the accumulated results. *)
Definition found (r : result tool_output) : list record :=
  match r with
  | Return (OutDict (Some results)) => valid_results results
  | _ => []
  end.

(** A state as the caller passes it in: the three inputs and nothing else. *)
Definition initial_state : GraphState :=
  {| topic := Some (py "Water Scarcity");
     presenter_name := Some (py "Asha");
     sub_queries := None;
     search_results := None;
     slide_plan := None;
     structured_context := None;
     slide_contents := None;
     presentation_path := None;
     template_name := Some (py "default");
     error := None |}.

(** The sample state before planning. *)
Definition searched_state : GraphState :=
  {| topic := Some (py "Water Scarcity");
     presenter_name := Some (py "Asha");
     sub_queries := Some [ py "water scarcity causes" ];
     search_results := Some [ sample_result "https://a.example/1" "first" ];
     slide_plan := None;
     structured_context := None;
     slide_contents := None;
     presentation_path := None;
     template_name := Some (py "default");
     error := None |}.

(** The sample state with a search result that has no "content". *)
Definition no_content_state : GraphState :=
  {| topic := Some (py "Water Scarcity");
     presenter_name := Some (py "Asha");
     sub_queries := Some [ py "water scarcity causes" ];
     search_results :=
       Some [ sample_result "https://a.example/1" "first";
              [ (py "url", VStr (py "https://b.example/2")) ] ];
     slide_plan := Some sample_plan;
     structured_context := None;
     slide_contents := None;
     presentation_path := None;
     template_name := Some (py "default");
     error := None |}.

(** A search script whose first call finds two records with different
    URLs and whose other calls fail. *)
Definition distinct_script : nat -> pystr -> result tool_output :=
  fun n query =>
    match n with
    | 0 => Return (OutDict (Some [ ItemDict (sample_result "https://a.example/1" "first");
                                   ItemDict (sample_result "https://b.example/2" "second") ]))
    | _ => Raise (Exception (py "search failed"))
    end.

(** A search script that always fails. *)
Definition failing_script : nat -> pystr -> result tool_output :=
  fun n query => Raise (Exception (py "search failed")).

(* ===================================================================== *)
(** * The embedding on small inputs *)
(* ===================================================================== *)

Example strip_both_ends : strip (py "  two  words ") = py "two  words".
Proof. reflexivity. Qed.

Example truncate_short : truncate 5 (py "abcde") = py "abcde".
Proof. reflexivity. Qed.

Example truncate_long : truncate 5 (py "abcdef") = py "abcde...".
Proof. reflexivity. Qed.

Example format_02d_pads : format_02d 7 = py "07" ∧ format_02d 12 = py "12".
Proof. by split. Qed.

Example re_split_title_cuts_once :
  re_split_title (py "Causes - Why: it matters")
  = [py "Causes "; py " Why: it matters"].
Proof. reflexivity. Qed.

Example re_split_title_en_dash :
  re_split_title (py "Past " ++ [EN_DASH] ++ py " Present")
  = [py "Past "; py " Present"].
Proof. reflexivity. Qed.

Example re_split_markup_alpha_beta :
  re_split_markup alpha_beta_bullet
  = [ []; py "**Alpha**"; py " " ++ [EN_DASH] ++ py " "; py "__Beta__";
      py " gamma" ].
Proof. reflexivity. Qed.

Example re_split_markup_lazy :
  re_split_markup (py "**a** b **c**")
  = [ []; py "**a**"; py " b "; py "**c**"; [] ].
Proof. reflexivity. Qed.

Example re_split_markup_unclosed :
  re_split_markup (py "a **b __c") = [py "a **b __c"].
Proof. reflexivity. Qed.

Example re_split_markup_no_newline :
  re_split_markup (py "**a" ++ [NEWLINE] ++ py "b**")
  = [py "**a" ++ [NEWLINE] ++ py "b**"].
Proof. reflexivity. Qed.

Example dict_set_keeps_position :
  PyDict.set 1 (py "c") [(1, py "a"); (2, py "b")] = [(1, py "c"); (2, py "b")].
Proof. reflexivity. Qed.

Example web_search_sample :
  web_search sample_search_tool sample_state 0
  = (Return
       (with_search_results
          [ sample_result "https://a.example/1" "third";
            sample_result "https://b.example/2" "second" ]
          no_update),
     2).
Proof. reflexivity. Qed.

Example bucket_facts_sample :
  bucket_facts [py "Overview"; py "Causes"]
    [ {| fact := py "A"; source := py "s1"; slide_title := py "Overview" |};
      {| fact := py "B"; source := py "s2"; slide_title := py "Appendix" |};
      {| fact := py "C"; source := py "s3"; slide_title := py "Overview" |} ]
  = [ (py "Overview", [ {| cp_fact := py "A"; cp_source := py "s1" |};
                        {| cp_fact := py "C"; cp_source := py "s3" |} ]);
      (py "Causes", []) ].
Proof. reflexivity. Qed.

Example content_slide_texts :
  slide_texts
    (content_slide upper_ascii default_style (py "Water") 6
       {| title := py "Outlook - Next"; bullets := [py "**Rain** falls"];
          references := Some [py "https://a.example/1"] |})
  = [ py "WATER"; py "Outlook"; py " - Next"; []; py "Rain"; py " falls";
      py "Sources: "; py "https://a.example/1"; py "Page No. 07" ].
Proof. reflexivity. Qed.

(* ===================================================================== *)
(** * Facts about dictionaries *)
(* ===================================================================== *)

Section pydict_facts.
Context {K V : Type} `{EqDecision K}.
Implicit Types (k : K) (v : V) (d : pydict K V).

Lemma get_set_eq k v d : PyDict.get k (PyDict.set k v d) = Some v.
Proof.
  induction d as [|[k' v'] d IH]; simpl.
  - by rewrite decide_True.
  - destruct (decide (k = k')) as [->|Hne]; simpl.
    + by rewrite decide_True.
    + by rewrite decide_False.
Qed.

Lemma get_set_ne k k' v d :
  k ≠ k' → PyDict.get k' (PyDict.set k v d) = PyDict.get k' d.
Proof.
  intros Hne. induction d as [|[k0 v0] d IH]; simpl.
  - rewrite decide_False; [done | congruence].
  - destruct (decide (k = k0)) as [->|Hk]; simpl.
    + rewrite !decide_False; [done | congruence | congruence].
    + destruct (decide (k' = k0)); [done | apply IH].
Qed.

Lemma get_None_keys k d : PyDict.get k d = None ↔ k ∉ PyDict.keys d.
Proof.
  unfold PyDict.keys. induction d as [|[k' v'] d IH]; simpl.
  - split; [intros _; apply not_elem_of_nil | done].
  - rewrite not_elem_of_cons. destruct (decide (k = k')) as [->|Hne].
    + split; [done | intros [? _]; done].
    + rewrite IH. tauto.
Qed.

Lemma get_is_Some_keys k d : is_Some (PyDict.get k d) ↔ k ∈ PyDict.keys d.
Proof.
  rewrite <- not_eq_None_Some, get_None_keys.
  destruct (decide (k ∈ PyDict.keys d)); tauto.
Qed.

Lemma elem_of_get k v d :
  NoDup (PyDict.keys d) → (k, v) ∈ d → PyDict.get k d = Some v.
Proof.
  unfold PyDict.keys. induction d as [|[k' v'] d IH]; simpl.
  - intros _ Hin. by apply elem_of_nil in Hin.
  - intros [Hnotin Hnd]%NoDup_cons [Heq|Hin]%elem_of_cons.
    + injection Heq as -> ->. by rewrite decide_True.
    + destruct (decide (k = k')) as [->|Hne]; [| by apply IH].
      exfalso. apply Hnotin. apply list_elem_of_fmap. by exists (k', v).
Qed.

Lemma keys_set k v d :
  PyDict.keys (PyDict.set k v d) =
  if PyDict.contains k d then PyDict.keys d else PyDict.keys d ++ [k].
Proof.
  unfold PyDict.contains, PyDict.keys.
  induction d as [|[k' v'] d IH]; csimpl; [done |].
  destruct (decide (k = k')) as [->|Hne]; csimpl; [done |].
  rewrite IH. by destruct (PyDict.get k d).
Qed.

Lemma NoDup_keys_set k v d :
  NoDup (PyDict.keys d) → NoDup (PyDict.keys (PyDict.set k v d)).
Proof.
  intros Hnd. rewrite keys_set. unfold PyDict.contains.
  destruct (PyDict.get k d) eqn:Hget; [done |].
  apply NoDup_app. split_and!; [done | | apply NoDup_singleton].
  intros x Hx ->%list_elem_of_singleton.
  by apply get_None_keys in Hget.
Qed.

End pydict_facts.

(* ===================================================================== *)
(** * Facts about computations *)
(* ===================================================================== *)

(** Unfolds the monad down to functions on the state. *)
Ltac run_M :=
  unfold mbind, M_bind, bind, mret, M_ret, ret, try_except, getitem, getkey,
    raise in *.

Lemma run_bind {S A B} (m : M S A) (k : A → M S B) (s s' : S) (a : A) :
  m s = (Return a, s') → (m ≫= k) s = k a s'.
Proof. intros Hm. unfold mbind, M_bind, bind. by rewrite Hm. Qed.

Lemma mapM_getkey {S} (k : string) (srs : list record) : ∀ contents (s : S),
  mapM (PyDict.get (py k)) srs = Some contents →
  mapM (getkey k) srs s = (Return contents, s).
Proof.
  induction srs as [|res srs IH]; intros contents s Hpure.
  - by injection Hpure as <-.
  - cbn [mapM] in Hpure |- *.
    destruct (PyDict.get (py k) res) as [v|] eqn:Hget; [| done].
    destruct (mapM (PyDict.get (py k)) srs) as [vs|]; [| done].
    injection Hpure as <-.
    assert (getkey k res s = (Return v, s)) as Hres
      by (unfold getkey; by rewrite Hget).
    erewrite run_bind by exact Hres.
    erewrite run_bind by (by apply IH). reflexivity.
Qed.

(* ===================================================================== *)
(** * The Web Searcher *)
(* ===================================================================== *)

Lemma valid_results_have_url results : Forall has_url (valid_results results).
Proof.
  apply Forall_forall. intros res [x [_ Hvalid]]%list_elem_of_omap.
  destruct x as [d|v]; simpl in Hvalid; [| congruence].
  unfold PyDict.contains in Hvalid. unfold has_url, url_of.
  destruct (PyDict.get (py "url") d) eqn:Hget; [| congruence].
  injection Hvalid as <-. rewrite Hget. by eexists.
Qed.

Lemma last_with_url_snoc u seen res :
  last_with_url u (seen ++ [res]) =
  if decide (url_of res = Some u) then Some res else last_with_url u seen.
Proof.
  unfold last_with_url. rewrite filter_app, last_app.
  rewrite filter_cons, filter_nil. by destruct (decide (url_of res = Some u)).
Qed.

Lemma last_with_url_Some u l res :
  last_with_url u l = Some res → res ∈ l ∧ url_of res = Some u.
Proof.
  unfold last_with_url. intros [l' Hl']%last_Some.
  assert (res ∈ filter (λ r, url_of r = Some u) l) as Hin.
  { rewrite Hl'. apply elem_of_app. right. apply list_elem_of_here. }
  by apply list_elem_of_filter in Hin as [? ?].
Qed.

Lemma last_with_url_is_Some u l :
  is_Some (last_with_url u l) ↔ ∃ res, res ∈ l ∧ url_of res = Some u.
Proof.
  split.
  - intros [res Hres]. exists res. by apply last_with_url_Some.
  - intros (res & Hin & Hurl). unfold last_with_url.
    assert (res ∈ filter (λ r, url_of r = Some u) l) as Hf
      by by apply list_elem_of_filter.
    destruct (filter (λ r, url_of r = Some u) l) as [|x xs] eqn:Hflt
      using rev_ind.
    + by apply elem_of_nil in Hf.
    + rewrite last_snoc. by eexists.
Qed.

Lemma indexes_nil : indexes [] [].
Proof. split; [apply NoDup_nil_2 | done]. Qed.

Lemma indexes_snoc d seen res u :
  url_of res = Some u → indexes d seen →
  indexes (PyDict.set u res d) (seen ++ [res]).
Proof.
  intros Hurl [Hnd Hget]. split; [by apply NoDup_keys_set |].
  intros u'. rewrite last_with_url_snoc, Hurl.
  destruct (decide (Some u = Some u')) as [[= <-]|Hne].
  - apply get_set_eq.
  - rewrite get_set_ne by congruence. apply Hget.
Qed.

Lemma url_dict_indexes {S} rest : ∀ d seen (s : S),
  Forall has_url rest → indexes d seen →
  ∃ d', url_dict rest d s = (Return d', s) ∧ indexes d' (seen ++ rest).
Proof.
  induction rest as [|res rest IH]; intros d seen s Hall Hidx.
  - exists d. by rewrite app_nil_r.
  - apply Forall_cons in Hall as [[u Hu] Hall].
    destruct (IH (PyDict.set u res d) (seen ++ [res]) s Hall) as (d' & Hrun & Hd').
    { by apply indexes_snoc. }
    exists d'. split; [| by rewrite <- app_assoc in Hd'].
    cbn [url_dict]. run_M. unfold url_of in Hu. rewrite Hu. exact Hrun.
Qed.

Lemma indexes_entry d seen u res :
  indexes d seen → (u, res) ∈ d → last_with_url u seen = Some res.
Proof. intros [Hnd Hget] Hin. rewrite <- Hget. by apply elem_of_get. Qed.

Lemma indexes_urls d seen :
  indexes d seen → url_of <$> PyDict.values d = Some <$> PyDict.keys d.
Proof.
  intros Hidx. unfold PyDict.values, PyDict.keys.
  rewrite <- !list_fmap_compose. apply list_fmap_ext.
  intros i [u res] Hi. simpl.
  apply list_elem_of_lookup_2 in Hi.
  by apply (indexes_entry _ _ _ _ Hidx), last_with_url_Some in Hi as [_ ?].
Qed.

Section web_search_facts.
Context {World : Type}.
Variable search_tool : pystr -> M World tool_output.

Lemma search_loop_returns queries : ∀ acc w,
  Forall has_url acc →
  ∃ all_results w',
    search_loop search_tool queries acc w = (Return all_results, w')
    ∧ Forall has_url all_results.
Proof.
  induction queries as [|query rest IH]; intros acc w Hacc.
  - by exists acc, w.
  - cbn [search_loop]. run_M.
    destruct (search_tool query w) as [[[[results|]|]|e] w1]; try by apply IH.
    apply IH, Forall_app. split; [done | apply valid_results_have_url].
Qed.

Lemma web_search_unfold state queries w all_results w' d :
  sub_queries state = Some queries →
  search_loop search_tool queries [] w = (Return all_results, w') →
  url_dict all_results [] w' = (Return d, w') →
  web_search search_tool state w
    = (Return (with_search_results (PyDict.values d) no_update), w').
Proof.
  intros Hq Hloop Hdict. unfold web_search, mbind, M_bind, bind.
  rewrite Hq. cbv beta iota delta [getitem ret]. rewrite Hloop.
  destruct all_results as [|r0 rs].
  - injection Hdict as <-. reflexivity.
  - rewrite Hdict. reflexivity.
Qed.

(** C1. The list written by [web_search] holds each URL once, holds exactly
    the URLs of the accumulated results, and each record it keeps is the
    last accumulated record with that URL. *)
Theorem web_search_dedup (state : GraphState) (queries : list pystr) (w : World) :
  sub_queries state = Some queries →
  ∃ all_results unique_results w',
    search_loop search_tool queries [] w = (Return all_results, w')
    ∧ web_search search_tool state w
        = (Return (with_search_results unique_results no_update), w')
    ∧ NoDup (url_of <$> unique_results)
    ∧ (∀ u, Some u ∈ url_of <$> unique_results
            ↔ Some u ∈ url_of <$> all_results)
    ∧ (∀ res, res ∈ unique_results →
         ∃ u, url_of res = Some u ∧ last_with_url u all_results = Some res).
Proof.
  intros Hq.
  destruct (search_loop_returns queries [] w) as (all_results & w' & Hloop & Hall);
    [done |].
  destruct (url_dict_indexes all_results [] [] w' Hall indexes_nil)
    as (d & Hdict & Hidx).
  rewrite app_nil_l in Hidx.
  exists all_results, (PyDict.values d), w'.
  split_and!; [done | by eapply web_search_unfold | | |].
  - rewrite (indexes_urls _ _ Hidx). apply NoDup_fmap_2; [| apply Hidx].
    by intros ?? [= ->].
  - intros u. rewrite (indexes_urls _ _ Hidx).
    rewrite (list_elem_of_fmap_inj Some). destruct Hidx as [_ Hget].
    rewrite <- get_is_Some_keys, Hget, last_with_url_is_Some.
    rewrite list_elem_of_fmap.
    split; intros (res & H1 & H2); exists res; by split.
  - intros res [[u r] [-> Hin]]%list_elem_of_fmap. exists u. simpl.
    pose proof (indexes_entry _ _ _ _ Hidx Hin) as Hlast.
    by destruct (last_with_url_Some _ _ _ Hlast) as [_ ?].
Qed.

End web_search_facts.

(* ===================================================================== *)
(** * The Fact Distiller *)
(* ===================================================================== *)

Lemma get_empty_buckets_from titles : ∀ (d : pydict pystr (list ContextPoint)) t,
  PyDict.get t (foldl (λ d t, PyDict.set t [] d) d titles) =
  if decide (t ∈ titles) then Some [] else PyDict.get t d.
Proof.
  induction titles as [|a titles IH]; intros d t; cbn [foldl].
  - rewrite decide_False; [done | apply not_elem_of_nil].
  - rewrite IH. destruct (decide (t ∈ titles)) as [Hin|Hnotin].
    + rewrite decide_True; [done | by apply list_elem_of_further].
    + destruct (decide (a = t)) as [->|Hne].
      * rewrite get_set_eq, decide_True; [done | apply list_elem_of_here].
      * rewrite get_set_ne by done. rewrite decide_False; [done |].
        intros [?|?]%elem_of_cons; congruence.
Qed.

Lemma get_empty_buckets titles t :
  PyDict.get t (empty_buckets titles) =
  if decide (t ∈ titles) then Some [] else None.
Proof. apply get_empty_buckets_from. Qed.

Lemma NoDup_keys_empty_buckets titles : NoDup (PyDict.keys (empty_buckets titles)).
Proof.
  unfold empty_buckets.
  assert (∀ d : pydict pystr (list ContextPoint), NoDup (PyDict.keys d) →
    NoDup (PyDict.keys (foldl (λ d t, PyDict.set t [] d) d titles))) as Hgen.
  { induction titles as [|a titles IH]; intros d Hd; simpl; [done |].
    by apply IH, NoDup_keys_set. }
  apply Hgen, NoDup_nil_2.
Qed.

Lemma get_bucket_fact d f t :
  PyDict.get t (bucket_fact d f) =
  if decide (slide_title f = t)
  then (λ bucket, bucket ++ [context_point f]) <$> PyDict.get t d
  else PyDict.get t d.
Proof.
  unfold bucket_fact.
  destruct (decide (slide_title f = t)) as [<-|Hne].
  - destruct (PyDict.get (slide_title f) d) as [bucket|] eqn:Hget.
    + by rewrite get_set_eq.
    + by rewrite Hget.
  - destruct (PyDict.get (slide_title f) d) as [bucket|]; [| done].
    by rewrite get_set_ne.
Qed.

Lemma keys_bucket_fact d f : PyDict.keys (bucket_fact d f) = PyDict.keys d.
Proof.
  unfold bucket_fact.
  destruct (PyDict.get (slide_title f) d) as [bucket|] eqn:Hget; [| done].
  rewrite keys_set. unfold PyDict.contains. by rewrite Hget.
Qed.

Lemma keys_foldl_bucket_fact facts : ∀ d,
  PyDict.keys (foldl bucket_fact d facts) = PyDict.keys d.
Proof.
  induction facts as [|f facts IH]; intros d; simpl; [done |].
  by rewrite IH, keys_bucket_fact.
Qed.

Lemma get_foldl_bucket_fact facts : ∀ d t,
  PyDict.get t (foldl bucket_fact d facts) =
  (λ bucket, bucket ++ (context_point <$> filter (λ f, slide_title f = t) facts))
    <$> PyDict.get t d.
Proof.
  induction facts as [|f facts IH]; intros d t; simpl.
  - destruct (PyDict.get t d); simpl; [by rewrite app_nil_r | done].
  - rewrite IH, get_bucket_fact, filter_cons.
    destruct (decide (slide_title f = t)) as [Heq|Hne]; [| done].
    destruct (PyDict.get t d); simpl; [| done].
    by rewrite <- app_assoc.
Qed.

Lemma get_bucket_facts titles facts t :
  PyDict.get t (bucket_facts titles facts) =
  if decide (t ∈ titles)
  then Some (context_point <$> filter (λ f, slide_title f = t) facts)
  else None.
Proof.
  unfold bucket_facts. rewrite get_foldl_bucket_fact, get_empty_buckets.
  by destruct (decide (t ∈ titles)).
Qed.

Lemma bucket_fact_dropped d f :
  slide_title f ∉ PyDict.keys d → bucket_fact d f = d.
Proof.
  intros Hnotin%get_None_keys. unfold bucket_fact. by rewrite Hnotin.
Qed.

Lemma foldl_bucket_fact_filter (titles : list pystr) facts : ∀ d,
  (∀ t, t ∈ PyDict.keys d ↔ t ∈ titles) →
  foldl bucket_fact d (filter (λ f, slide_title f ∈ titles) facts)
  = foldl bucket_fact d facts.
Proof.
  induction facts as [|f facts IH]; intros d Hkeys; [done |].
  rewrite filter_cons. destruct (decide (slide_title f ∈ titles)) as [Hin|Hnotin].
  - simpl. apply IH. intros t. by rewrite keys_bucket_fact.
  - simpl. rewrite (bucket_fact_dropped d f); [by apply IH |].
    by rewrite Hkeys.
Qed.

Lemma elem_of_keys_empty_buckets titles t :
  t ∈ PyDict.keys (empty_buckets titles) ↔ t ∈ titles.
Proof.
  rewrite <- get_is_Some_keys, get_empty_buckets.
  destruct (decide (t ∈ titles)); split; done.
Qed.

Lemma bucket_facts_filter (titles : list pystr) facts :
  bucket_facts titles (filter (λ f, slide_title f ∈ titles) facts)
  = bucket_facts titles facts.
Proof.
  apply foldl_bucket_fact_filter, elem_of_keys_empty_buckets.
Qed.

Section distiller_facts.
Context {World : Type}.
Variable llm_facts : Prompt -> M World (option (list Fact)).

(** C2. When the distillation call returns, the context written by
    [summarize_results] has one bucket for the overview title and for every
    key-point title and no other; the bucket of a title holds, in order, the
    points of the facts assigned to exactly that title; and the facts
    assigned to any other title leave no trace: the context is the one built
    from the facts without them. *)
Theorem summarize_results_buckets (state : GraphState) (tp : pystr)
    (srs : list record) (plan : SlidePlan) (blocks : list pystr)
    (fact_list_obj : option (list Fact)) (w w' : World) :
  topic state = Some tp →
  search_results state = Some srs →
  slide_plan state = Some plan →
  mapM source_block srs w = (Return blocks, w) →
  llm_facts (FactsPrompt tp
               (join (py ", ") (overview_title plan :: key_points plan))
               (join [NEWLINE] blocks)) w = (Return fact_list_obj, w') →
  ∃ d,
    summarize_results llm_facts state w
      = (Return (with_structured_context {| context_by_slide := d |}
                   no_update), w')
    ∧ NoDup (PyDict.keys d)
    ∧ (∀ t, t ∈ PyDict.keys d ↔ t = overview_title plan ∨ t ∈ key_points plan)
    ∧ (∀ t, t ∈ PyDict.keys d →
         PyDict.get t d
         = Some (context_point
                   <$> filter (λ f, slide_title f = t) (default [] fact_list_obj)))
    ∧ d = bucket_facts (overview_title plan :: key_points plan)
            (filter (λ f, slide_title f ∈ PyDict.keys d)
                    (default [] fact_list_obj)).
Proof.
  intros Htopic Hsrs Hplan Hblocks Hllm.
  set (slide_titles := overview_title plan :: key_points plan) in *.
  set (facts := default [] fact_list_obj).
  assert (∀ t, t ∈ PyDict.keys (bucket_facts slide_titles facts)
               ↔ t ∈ slide_titles) as Hkeys.
  { intros t. unfold bucket_facts.
    rewrite keys_foldl_bucket_fact. apply elem_of_keys_empty_buckets. }
  exists (bucket_facts slide_titles facts). split_and!.
  - unfold summarize_results.
    rewrite Htopic, Hsrs, Hplan. fold slide_titles.
    do 3 (erewrite run_bind by reflexivity).
    erewrite run_bind by exact Hblocks.
    unfold try_except. erewrite run_bind by exact Hllm. reflexivity.
  - unfold bucket_facts. rewrite keys_foldl_bucket_fact.
    apply NoDup_keys_empty_buckets.
  - intros t. rewrite Hkeys. apply elem_of_cons.
  - intros t Ht%Hkeys. rewrite get_bucket_facts. by rewrite decide_True.
  - rewrite <- (bucket_facts_filter slide_titles facts) at 1.
    f_equal. apply list_filter_iff. intros f. by rewrite Hkeys.
Qed.

End distiller_facts.

(* ===================================================================== *)
(** * The Slide Content Generator *)
(* ===================================================================== *)

Section generator_facts.
Context {World : Type}.
Variable llm_slide : Prompt -> M World SlideContent.

Lemma key_point_loop_cons tp map t rest acc (w : World) :
  key_point_loop llm_slide tp map (t :: rest) acc w =
  let '(r, w1) := llm_slide (key_point_prompt tp map t) w in
  key_point_loop llm_slide tp map rest
    (acc ++ [answer_or (content_failed t) r]) w1.
Proof.
  cbn [key_point_loop]. unfold mbind, M_bind, bind, try_except.
  by destruct (llm_slide (key_point_prompt tp map t) w) as [[s|e] w1].
Qed.

Lemma key_point_loop_returns tp map titles : ∀ acc (w : World),
  ∃ out w',
    key_point_loop llm_slide tp map titles acc w = (Return (acc ++ out), w')
    ∧ length out = length titles.
Proof.
  induction titles as [|t rest IH]; intros acc w.
  - exists [], w. by rewrite app_nil_r.
  - rewrite key_point_loop_cons.
    destruct (llm_slide (key_point_prompt tp map t) w) as [r w1].
    destruct (IH (acc ++ [answer_or (content_failed t) r]) w1)
      as (out & w' & Hrun & Hlen).
    exists (answer_or (content_failed t) r :: out), w'.
    split; [by rewrite Hrun, <- app_assoc | simpl; by rewrite Hlen].
Qed.

(** The node after its three reads of the state and the key-point loop. *)
Lemma generate_slide_content_unfold state tp plan srs contents slides
    (w w1 : World) :
  topic state = Some tp →
  slide_plan state = Some plan →
  search_results state = Some srs →
  mapM (getkey "content") srs w1 = (Return contents, w1) →
  key_point_loop llm_slide tp
    (match structured_context state with
     | Some sc => context_by_slide sc
     | None => []
     end)
    (key_points plan)
    [ {| title := plan_title plan; bullets := []; references := Some [] |};
      {| title := overview_title plan; bullets := agenda_points plan;
         references := Some [] |} ] w = (Return slides, w1) →
  generate_slide_content llm_slide state w =
  let '(r, w') :=
    llm_slide (ConclusionPrompt (conclusion_title plan) tp contents) w1 in
  (Return (with_slide_contents
             (slides ++ [answer_or (summary_failed (conclusion_title plan)) r])
             no_update), w').
Proof.
  intros Htopic Hplan Hsrs Hcontents Hloop. unfold generate_slide_content.
  rewrite Htopic, Hplan, Hsrs.
  do 2 (erewrite run_bind by reflexivity).
  erewrite run_bind by exact Hloop.
  erewrite run_bind by reflexivity.
  erewrite run_bind by exact Hcontents.
  unfold mbind, M_bind, bind, try_except.
  by destruct (llm_slide _ w1) as [[s|e] w'].
Qed.

(** C3. For a plan with four key points the node writes seven slides: the
    title slide, the overview slide with the agenda as bullets, the slide of
    each key point in plan order (the model's answer to that key point's
    prompt, or its placeholder), and the conclusion slide. *)
Theorem generate_slide_content_seven (state : GraphState) (tp : pystr)
    (plan : SlidePlan) (srs : list record) (contents : list value) (w : World) :
  topic state = Some tp →
  slide_plan state = Some plan →
  search_results state = Some srs →
  mapM (PyDict.get (py "content")) srs = Some contents →
  length (key_points plan) = 4 →
  ∃ t1 t2 t3 t4,
    key_points plan = [t1; t2; t3; t4] ∧
    let map :=
      match structured_context state with
      | Some sc => context_by_slide sc
      | None => []
      end in
    let '(r1, w1) := llm_slide (key_point_prompt tp map t1) w in
    let '(r2, w2) := llm_slide (key_point_prompt tp map t2) w1 in
    let '(r3, w3) := llm_slide (key_point_prompt tp map t3) w2 in
    let '(r4, w4) := llm_slide (key_point_prompt tp map t4) w3 in
    let '(r5, w5) :=
      llm_slide (ConclusionPrompt (conclusion_title plan) tp contents) w4 in
    generate_slide_content llm_slide state w =
    (Return
       (with_slide_contents
          [ {| title := plan_title plan; bullets := [];
               references := Some [] |};
            {| title := overview_title plan; bullets := agenda_points plan;
               references := Some [] |};
            answer_or (content_failed t1) r1;
            answer_or (content_failed t2) r2;
            answer_or (content_failed t3) r3;
            answer_or (content_failed t4) r4;
            answer_or (summary_failed (conclusion_title plan)) r5 ]
          no_update),
     w5).
Proof.
  intros Htopic Hplan Hsrs Hcontents Hlen.
  destruct (key_points plan) as [|t1 [|t2 [|t3 [|t4 [|t5 rest]]]]] eqn:Hkp;
    try discriminate Hlen.
  exists t1, t2, t3, t4. split; [done |]. intros map.
  destruct (llm_slide (key_point_prompt tp map t1) w) as [r1 w1] eqn:H1.
  destruct (llm_slide (key_point_prompt tp map t2) w1) as [r2 w2] eqn:H2.
  destruct (llm_slide (key_point_prompt tp map t3) w2) as [r3 w3] eqn:H3.
  destruct (llm_slide (key_point_prompt tp map t4) w3) as [r4 w4] eqn:H4.
  destruct (llm_slide (ConclusionPrompt (conclusion_title plan) tp contents) w4)
    as [r5 w5] eqn:H5.
  rewrite (generate_slide_content_unfold state tp plan srs contents
             [ {| title := plan_title plan; bullets := [];
                  references := Some [] |};
               {| title := overview_title plan; bullets := agenda_points plan;
                  references := Some [] |};
               answer_or (content_failed t1) r1;
               answer_or (content_failed t2) r2;
               answer_or (content_failed t3) r3;
               answer_or (content_failed t4) r4 ] w w4);
    [by rewrite H5 | done | done | done | by apply mapM_getkey |].
  rewrite Hkp. fold map.
  rewrite key_point_loop_cons, H1, key_point_loop_cons, H2,
    key_point_loop_cons, H3, key_point_loop_cons, H4.
  reflexivity.
Qed.

End generator_facts.

Lemma scripted_key_point_loop script tp map titles : ∀ acc n,
  key_point_loop (scripted script) tp map titles acc n =
  (Return
     (acc ++ imap (λ i t, answer_or (content_failed t)
                            (script (n + i) (key_point_prompt tp map t)))
                  titles),
   n + length titles).
Proof.
  induction titles as [|t rest IH]; intros acc n.
  - simpl. by rewrite app_nil_r, Nat.add_0_r.
  - rewrite key_point_loop_cons. unfold scripted at 1. rewrite IH.
    rewrite <- app_assoc, imap_cons. simpl. rewrite Nat.add_0_r.
    f_equal; [| lia]. do 3 f_equal.
    apply imap_ext. intros i x _. simpl. by rewrite Nat.add_succ_r.
Qed.

(** The slides written with a scripted model, starting at call [n]. *)
Lemma scripted_generate_slide_content script state tp plan srs contents n :
  topic state = Some tp →
  slide_plan state = Some plan →
  search_results state = Some srs →
  mapM (PyDict.get (py "content")) srs = Some contents →
  let map :=
    match structured_context state with
    | Some sc => context_by_slide sc
    | None => []
    end in
  generate_slide_content (scripted script) state n =
  (Return
     (with_slide_contents
        ([ {| title := plan_title plan; bullets := []; references := Some [] |};
           {| title := overview_title plan; bullets := agenda_points plan;
              references := Some [] |} ]
         ++ imap (λ i t, answer_or (content_failed t)
                           (script (n + i) (key_point_prompt tp map t)))
                 (key_points plan)
         ++ [answer_or (summary_failed (conclusion_title plan))
               (script (n + length (key_points plan))
                  (ConclusionPrompt (conclusion_title plan) tp contents))])
        no_update),
   S (n + length (key_points plan))).
Proof.
  intros Htopic Hplan Hsrs Hcontents map.
  erewrite generate_slide_content_unfold;
    [| done | done | done | by apply mapM_getkey
     | apply scripted_key_point_loop].
  unfold scripted at 1. fold map. by rewrite <- app_assoc.
Qed.

Lemma lookup_slides {A} (a b c : A) (mid : list A) (j : nat) :
  ([a; b] ++ mid ++ [c]) !! j =
  match j with
  | 0 => Some a
  | 1 => Some b
  | S (S i) =>
      if decide (i < length mid) then mid !! i
      else if decide (i = length mid) then Some c else None
  end.
Proof.
  destruct j as [|[|i]]; [done | done |]. simpl.
  destruct (decide (i < length mid)) as [Hlt|Hge].
  - by rewrite lookup_app_l.
  - rewrite lookup_app_r by lia.
    destruct (decide (i = length mid)) as [->|Hne].
    + by rewrite Nat.sub_diag.
    + apply lookup_ge_None_2. simpl. lia.
Qed.

(** C9. Let one model call of the node fail: the call for key point [k],
    or the conclusion call when [k] is the number of key points.  The slide
    at that position is the placeholder: the planned title, the one
    failure-notice bullet, no references.  Every other position holds the
    slide it holds when that call does not fail. *)
Theorem generation_failure_isolated
    (script : nat -> Prompt -> result SlideContent) (state : GraphState)
    (tp : pystr) (plan : SlidePlan) (srs : list record)
    (contents : list value) (n k : nat) (e : exn) :
  topic state = Some tp →
  slide_plan state = Some plan →
  search_results state = Some srs →
  mapM (PyDict.get (py "content")) srs = Some contents →
  k ≤ length (key_points plan) →
  ∃ slides slides' n',
    generate_slide_content (scripted script) state n
      = (Return (with_slide_contents slides no_update), n')
    ∧ generate_slide_content (scripted (fail_at (n + k) e script)) state n
      = (Return (with_slide_contents slides' no_update), n')
    ∧ slides' !! (2 + k)
      = Some {| title := default (conclusion_title plan) (key_points plan !! k);
                bullets :=
                  [ match key_points plan !! k with
                    | Some _ => py "Content generation failed."
                    | None => py "Summary generation failed."
                    end ];
                references := Some [] |}
    ∧ ∀ j, j ≠ 2 + k → slides' !! j = slides !! j.
Proof.
  intros Htopic Hplan Hsrs Hcontents Hk.
  eexists _, _, _. split_and!.
  - by eapply scripted_generate_slide_content.
  - by eapply scripted_generate_slide_content.
  - rewrite lookup_slides. simpl. rewrite length_imap, list_lookup_imap.
    unfold fail_at. destruct (decide (k < length (key_points plan))) as [Hlt|Hge].
    + destruct (lookup_lt_is_Some_2 _ _ Hlt) as [t Ht]. rewrite Ht. simpl.
      by rewrite decide_True.
    + assert (k = length (key_points plan)) as -> by lia.
      rewrite decide_True by done. rewrite decide_True by done.
      by rewrite lookup_ge_None_2.
  - intros j Hj. rewrite !lookup_slides.
    destruct j as [|[|i]]; [done | done |].
    rewrite !length_imap, !list_lookup_imap.
    destruct (decide (i < length (key_points plan))) as [Hlt|Hge].
    + destruct (key_points plan !! i) as [t|]; [| done]. simpl.
      unfold fail_at. rewrite decide_False by lia. done.
    + destruct (decide (i = length (key_points plan))) as [->|Hne]; [| done].
      unfold fail_at. rewrite decide_False by lia. done.
Qed.

(* ===================================================================== *)
(** * The workflow *)
(* ===================================================================== *)

Section workflow_facts.
Context {World : Type}.
Variable llm_queries : Prompt -> M World (list pystr).
Variable llm_plan : Prompt -> M World SlidePlan.
Variable llm_facts : Prompt -> M World (option (list Fact)).
Variable llm_slide : Prompt -> M World SlideContent.
Variable search_tool : pystr -> M World tool_output.
Variable upper : pystr -> pystr.
Variable isalnum : N -> bool.
Variable write_error : pystr -> option exn.

Local Abbreviation act :=
  (node_action llm_queries llm_plan llm_facts llm_slide search_tool upper
     isalnum write_error).
Local Abbreviation go :=
  (run llm_queries llm_plan llm_facts llm_slide search_tool upper isalnum
     write_error).
Local Abbreviation invoke :=
  (app_graph llm_queries llm_plan llm_facts llm_slide search_tool upper
     isalnum write_error).

Lemma run_unfold fuel n next state s :
  PyDict.get n edges = Some next →
  go (S fuel) n state s =
  match act n state s with
  | (Return update, s1) => go fuel next (merge state update) s1
  | (Raise e, s1) => (Raise e, s1)
  end.
Proof.
  intros Hedge.
  destruct n; try discriminate Hedge; injection Hedge as <-;
    cbn [run]; unfold step, mbind, M_bind, bind;
    by destruct (act _ state s) as [[update|e] s1].
Qed.

(** The fuel given to the graph is enough: a run ends at [END] or with the
    exception of one of its nodes, never for lack of fuel. *)
Lemma run_enough_fuel fuel : ∀ n state s,
  distance n ≤ fuel →
  (∃ state' s', go fuel n state s = (Return state', s'))
  ∨ (∃ n' state' s0 e s',
       act n' state' s0 = (Raise e, s')
       ∧ go fuel n state s = (Raise e, s')).
Proof.
  induction fuel as [|fuel IH]; intros n state s Hfuel.
  - destruct n; simpl in Hfuel; try lia. left. by eexists _, _.
  - destruct (PyDict.get n edges) as [next|] eqn:Hedge.
    + rewrite (run_unfold _ _ _ _ _ Hedge).
      destruct (act n state s) as [[update|e] s1] eqn:Hact.
      * apply IH. destruct n; try discriminate Hedge;
          injection Hedge as <-; simpl in *; lia.
      * right. by exists n, state, s, e, s1.
    + destruct n; try discriminate Hedge. left. by eexists _, _.
Qed.

Lemma app_graph_enough_fuel state s :
  (∃ state' s', invoke state s = (Return state', s'))
  ∨ (∃ n' state' s0 e s',
       act n' state' s0 = (Raise e, s')
       ∧ invoke state s = (Raise e, s')).
Proof. apply run_enough_fuel. reflexivity. Qed.

End workflow_facts.

(* ===================================================================== *)
(** * Failure of the Fact Distiller *)
(* ===================================================================== *)

Section pipeline_facts.
Context {World : Type}.
Variable llm_queries : Prompt -> M World (list pystr).
Variable llm_plan : Prompt -> M World SlidePlan.
Variable llm_facts : Prompt -> M World (option (list Fact)).
Variable llm_slide : Prompt -> M World SlideContent.
Variable search_tool : pystr -> M World tool_output.
Variable upper : pystr -> pystr.
Variable isalnum : N -> bool.
Variable write_error : pystr -> option exn.

Lemma source_block_run (res : record) (w : World) :
  source_block res w =
  match PyDict.get (py "url") res, PyDict.get (py "content") res with
  | Some url, Some content =>
      (Return (py "Source: " ++ value_str url ++ [NEWLINE]
               ++ py "Content: " ++ value_str content), w)
  | Some _, None => (Raise (KeyError "content"), w)
  | None, _ => (Raise (KeyError "url"), w)
  end.
Proof.
  unfold source_block, getkey, mbind, M_bind, bind, getitem.
  by destruct (PyDict.get (py "url") res), (PyDict.get (py "content") res).
Qed.

Lemma mapM_source_block_contents (srs : list record) : ∀ blocks (w w' : World),
  mapM source_block srs w = (Return blocks, w') →
  is_Some (mapM (PyDict.get (py "content")) srs).
Proof.
  induction srs as [|res srs IH]; intros blocks w w' Hrun; [by eexists |].
  cbn [mapM] in Hrun |- *. unfold mbind at 1, M_bind at 1, bind at 1 in Hrun.
  rewrite source_block_run in Hrun.
  destruct (PyDict.get (py "url") res) as [url|]; [| done].
  destruct (PyDict.get (py "content") res) as [content|]; [| done].
  unfold mbind at 1, M_bind at 1, bind at 1 in Hrun.
  destruct (mapM source_block srs w) as [[bs|e] w1] eqn:Hrest; [| done].
  destruct (IH _ _ _ Hrest) as [contents ->]. by eexists.
Qed.

(** C8. When the distillation call raises, [summarize_results] returns
    normally with an empty context and the error note; the graph merges
    both into the state and moves on to [generate_slide_content], which
    runs on that state and writes its slides. *)
Theorem distiller_failure_continues (state : GraphState) (tp : pystr)
    (srs : list record) (plan : SlidePlan) (blocks : list pystr) (e : exn)
    (w w' : World) (disk : Disk) :
  topic state = Some tp →
  search_results state = Some srs →
  slide_plan state = Some plan →
  mapM source_block srs w = (Return blocks, w) →
  llm_facts (FactsPrompt tp
               (join (py ", ") (overview_title plan :: key_points plan))
               (join [NEWLINE] blocks)) w = (Raise e, w') →
  summarize_results llm_facts state w
  = (Return (with_structured_context {| context_by_slide := [] |}
               (with_error (py "Failed to generate structured summary.")
                           no_update)), w')
  ∧ step llm_queries llm_plan llm_facts llm_slide search_tool upper isalnum
         write_error SUMMARIZE_RESULTS state (w, disk)
    = (Return
         (GENERATE_SLIDE_CONTENT,
          merge state
            (with_structured_context {| context_by_slide := [] |}
               (with_error (py "Failed to generate structured summary.")
                           no_update))),
       (w', disk))
  ∧ ∃ state',
      state' = merge state
                 (with_structured_context {| context_by_slide := [] |}
                    (with_error (py "Failed to generate structured summary.")
                                no_update))
      ∧ structured_context state' = Some {| context_by_slide := [] |}
      ∧ error state' = Some (py "Failed to generate structured summary.")
      ∧ ∃ slides w'',
          generate_slide_content llm_slide state' w'
          = (Return (with_slide_contents slides no_update), w'')
          ∧ length slides = 3 + length (key_points plan).
Proof.
  intros Htopic Hsrs Hplan Hblocks Hllm.
  set (update := with_structured_context _ _).
  assert (summarize_results llm_facts state w = (Return update, w')) as Hsum.
  { unfold summarize_results. rewrite Htopic, Hsrs, Hplan.
    do 3 (erewrite run_bind by reflexivity).
    erewrite run_bind by exact Hblocks.
    unfold try_except, mbind, M_bind, bind. by rewrite Hllm. }
  split_and!; [done | |].
  - unfold step, node_action.
    erewrite run_bind; [| unfold in_world; by rewrite Hsum].
    reflexivity.
  - exists (merge state update). split_and!; [done | done | done |].
    destruct (mapM_source_block_contents _ _ _ _ Hblocks) as [contents Hcontents].
    destruct (key_point_loop_returns llm_slide tp [] (key_points plan)
      [ {| title := plan_title plan; bullets := []; references := Some [] |};
        {| title := overview_title plan; bullets := agenda_points plan;
           references := Some [] |} ] w') as (out & w1 & Hloop & Hlen).
    destruct (llm_slide (ConclusionPrompt (conclusion_title plan) tp contents) w1)
      as [r w''] eqn:Hconclusion.
    eexists _, w''. split.
    + erewrite (generate_slide_content_unfold llm_slide (merge state update)
                  tp plan srs contents _ w' w1);
        [ by rewrite Hconclusion
        | by simpl; rewrite Htopic | by simpl; rewrite Hplan
        | by simpl; rewrite Hsrs | by apply mapM_getkey | exact Hloop ].
    + rewrite !length_app, Hlen. simpl. lia.
Qed.

End pipeline_facts.

(* ===================================================================== *)
(** * The Deck Renderer *)
(* ===================================================================== *)

Lemma re_search_delim_first head d tail :
  Forall (λ c, is_title_delim c = false) head →
  is_title_delim d = true →
  re_search_delim (head ++ d :: tail) = Some (head, tail).
Proof.
  intros Hhead Hd. induction Hhead as [|c head Hc _ IH]; simpl.
  - by rewrite Hd.
  - by rewrite Hc, IH.
Qed.

Lemma re_search_delim_none s :
  Forall (λ c, is_title_delim c = false) s → re_search_delim s = None.
Proof.
  intros Hs. induction Hs as [|c s Hc _ IH]; simpl; [done |].
  by rewrite Hc, IH.
Qed.

(** C4 as the code has it.  The tokenizer keeps the text before the first
    marker and the text between the two marked groups as segments of their
    own, and every segment becomes a run: five runs, not three. *)
Theorem alpha_beta_five_runs (style : Style) :
  (λ r, (run_kind r, run_text r, font_color (run_font r)))
    <$> bullet_runs style alpha_beta_bullet
  = [ (Plain, [], Some (primary_color style));
      (Bold, py "Alpha", Some (secondary_color style));
      (Plain, py " " ++ [EN_DASH] ++ py " ", Some (primary_color style));
      (Underline, py "Beta", Some (primary_color style));
      (Plain, py " gamma", Some (primary_color style)) ].
Proof. reflexivity. Qed.

(** C4 as the claim has it fails: the runs of the sample bullet are not the
    three runs bold "Alpha", underline "Beta", plain " gamma". *)
Lemma alpha_beta_not_three_runs :
  length (bullet_runs default_style alpha_beta_bullet) ≠ 3
  ∧ (λ r, (run_kind r, run_text r)) <$> bullet_runs default_style alpha_beta_bullet
    ≠ [ (Bold, py "Alpha"); (Underline, py "Beta"); (Plain, py " gamma") ].
Proof. split; vm_compute; discriminate. Qed.

(** C5. A title with a delimiter is rendered as two runs, split at the
    first delimiter: the stripped head in the primary colour, then " - "
    and the stripped tail in the secondary colour.  A title without a
    delimiter is rendered as one run in the primary colour. *)
Theorem title_runs_split (style : Style) (slide_title : pystr) :
  (∀ head d tail,
     slide_title = head ++ d :: tail →
     Forall (λ c, is_title_delim c = false) head →
     is_title_delim d = true →
     title_runs style slide_title
     = [ {| run_text := strip head;
            run_font := {| font_name := Some (title_font style);
                           font_size := Some 28%Z; font_bold := Some true;
                           font_underline := None;
                           font_color := Some (primary_color style) |};
            run_hyperlink := None |};
         {| run_text := py " - " ++ strip tail;
            run_font := {| font_name := Some (title_font style);
                           font_size := Some 28%Z; font_bold := Some true;
                           font_underline := None;
                           font_color := Some (secondary_color style) |};
            run_hyperlink := None |} ])
  ∧ (Forall (λ c, is_title_delim c = false) slide_title →
     title_runs style slide_title
     = [ {| run_text := strip slide_title;
            run_font := {| font_name := Some (title_font style);
                           font_size := Some 28%Z; font_bold := Some true;
                           font_underline := None;
                           font_color := Some (primary_color style) |};
            run_hyperlink := None |} ]).
Proof.
  split.
  - intros head d tail -> Hhead Hd. unfold title_runs, re_split_title.
    by rewrite re_search_delim_first.
  - intros Hnone. unfold title_runs, re_split_title.
    by rewrite re_search_delim_none.
Qed.

Lemma unknown_theme (name : pystr) :
  name ∉ PyDict.keys THEMES →
  PyDict.get name THEMES = None ∧ PyDict.get name THEME_FONTS = None.
Proof.
  intros Hname. split; apply get_None_keys; [done |].
  by change (PyDict.keys THEME_FONTS) with (PyDict.keys THEMES).
Qed.

Lemma resolve_unknown_theme {S} (name : pystr) (s : S) :
  name ∉ PyDict.keys THEMES → resolve_theme name s = (Return default_style, s).
Proof.
  intros [Htheme Hfonts]%unknown_theme.
  unfold resolve_theme, get_default. by rewrite Htheme, Hfonts.
Qed.

Lemma resolve_theme_total {S} (name : pystr) (s : S) :
  ∃ style, resolve_theme name s = (Return style, s).
Proof.
  destruct (decide (name ∈ PyDict.keys THEMES)) as [Hin|Hnotin].
  - unfold PyDict.keys, THEMES in Hin. simpl in Hin.
    repeat (apply elem_of_cons in Hin as [->|Hin]; [by eexists |]).
    by apply elem_of_nil in Hin.
  - eexists. by apply resolve_unknown_theme.
Qed.

(** C6. A theme name that is not a key of [THEMES] resolves as "default"
    does, without raising: to the four colours and the two fonts of the
    default theme. *)
Theorem unknown_theme_falls_back {S} (name : pystr) (s : S) :
  name ∉ PyDict.keys THEMES →
  resolve_theme name s = resolve_theme (py "default") s
  ∧ resolve_theme name s
    = (Return {| background_color := RGB 255 255 255;
                 primary_color := RGB 0 0 0;
                 secondary_color := RGB 100 100 100;
                 accent_color := RGB 150 150 150;
                 title_font := py "Segoe UI";
                 body_font := py "Calibri" |}, s).
Proof.
  intros Hname. rewrite (resolve_unknown_theme name s Hname). by split.
Qed.

Lemma texts_append_pieces pieces : ∀ idx,
  run_text <$> omap (λ x, match x with TextRun r => Some r | LineBreak => None end)
                    (append_pieces idx pieces)
  = filter (λ piece, piece ≠ []) pieces.
Proof.
  induction pieces as [|piece pieces IH]; intros idx; [done |].
  cbn [append_pieces]. rewrite !omap_app, !fmap_app, IH, filter_cons.
  assert (∀ i, run_text <$> omap (λ x, match x with
                                       | TextRun r => Some r
                                       | LineBreak => None
                                       end)
                 (match i with 0 => [] | S _ => [LineBreak] end) = [])
    as -> by (by intros []).
  destruct piece as [|c piece].
  - by rewrite decide_False by (by intros ?).
  - by rewrite decide_True.
Qed.

(** The run texts that [p.text = s] leaves in a paragraph. *)
Lemma texts_paragraph_text s :
  run_text <$> omap (λ x, match x with TextRun r => Some r | LineBreak => None end)
                    (paragraph_text s)
  = text_lines s.
Proof. apply texts_append_pieces. Qed.

Lemma slide_texts_title_slide style topic presenter contents :
  slide_texts (title_slide style topic presenter contents)
  = truncate 60 (default topic (title <$> head contents))
    :: text_lines (py "Presented by " ++ presenter).
Proof.
  unfold slide_texts, title_slide, p_runs. cbn [sl_shapes].
  destruct contents; cbn; by rewrite texts_paragraph_text, !app_nil_r.
Qed.

Section renderer_facts.
Variable upper : pystr -> pystr.
Variable isalnum : N -> bool.
Variable write_error : pystr -> option exn.

Lemma length_content_slides style topic rest : ∀ i,
  length (content_slides upper style topic i rest) = length rest.
Proof. induction rest as [|sd rest IH]; intros i; simpl; [done | by rewrite IH]. Qed.

(** The renderer after the theme is resolved: the write decides. *)
Lemma create_presentation_file_run topic presenter template contents
    (disk : Disk) (style : Style) :
  resolve_theme template disk = (Return style, disk) →
  create_presentation_file upper isalnum write_error topic presenter template
    contents disk
  = match write_error (output_path isalnum topic template) with
    | None =>
        (Return (output_path isalnum topic template),
         PyDict.set (output_path isalnum topic template)
           (build_presentation upper style topic presenter contents) disk)
    | Some e => (Raise e, disk)
    end.
Proof.
  intros Hstyle. unfold create_presentation_file.
  erewrite run_bind by exact Hstyle.
  unfold save, mbind, M_bind, bind.
  by destruct (write_error (output_path isalnum topic template)).
Qed.

(** C7 as the code has it.  The first entry titles the opening slide, each
    of the six others gets a slide, and the closing slide follows: the deck
    has eight slides.  When the write succeeds the deck is saved under the
    returned path; when it fails its exception is raised and nothing is
    saved. *)
Theorem seven_entries_eight_slides (topic presenter template : pystr)
    (contents : list SlideContent) (disk : Disk) :
  length contents = 7 →
  ∃ style s0 s1 s2 s3 s4 s5 s6,
    contents = [s0; s1; s2; s3; s4; s5; s6]
    ∧ resolve_theme template disk = (Return style, disk)
    ∧ slides (build_presentation upper style topic presenter contents)
      = [ title_slide style topic presenter contents;
          content_slide upper style topic 1 s1;
          content_slide upper style topic 2 s2;
          content_slide upper style topic 3 s3;
          content_slide upper style topic 4 s4;
          content_slide upper style topic 5 s5;
          content_slide upper style topic 6 s6;
          thank_you_slide style ]
    ∧ length (slides (build_presentation upper style topic presenter contents))
      = 8
    ∧ match write_error (output_path isalnum topic template) with
      | None =>
          create_presentation_file upper isalnum write_error topic presenter
            template contents disk
          = (Return (output_path isalnum topic template),
             PyDict.set (output_path isalnum topic template)
               (build_presentation upper style topic presenter contents) disk)
          ∧ PyDict.get (output_path isalnum topic template)
              (PyDict.set (output_path isalnum topic template)
                 (build_presentation upper style topic presenter contents)
                 disk)
            = Some (build_presentation upper style topic presenter contents)
      | Some e =>
          create_presentation_file upper isalnum write_error topic presenter
            template contents disk
          = (Raise e, disk)
      end.
Proof.
  intros Hlen. destruct (resolve_theme_total template disk) as [style Hstyle].
  destruct contents as [|s0 [|s1 [|s2 [|s3 [|s4 [|s5 [|s6 [|s7 rest]]]]]]]];
    try discriminate Hlen.
  exists style, s0, s1, s2, s3, s4, s5, s6.
  split_and!; [done | done | done | done |].
  rewrite (create_presentation_file_run _ _ _ _ _ _ Hstyle).
  destruct (write_error _); [done |]. split; [done | apply get_set_eq].
Qed.

(** C10 as the code has it.  With no slide content the theme still
    resolves and the deck has two slides: the title slide, whose title is
    the topic, cut after sixty characters and followed by three dots when
    it is longer, and the closing slide.  When the write succeeds the deck
    is saved and the path of the file returned; when it fails its exception
    is raised and nothing is saved. *)
Theorem empty_contents_two_slides (topic presenter template : pystr)
    (disk : Disk) :
  ∃ style,
    resolve_theme template disk = (Return style, disk)
    ∧ slides (build_presentation upper style topic presenter [])
      = [ title_slide style topic presenter []; thank_you_slide style ]
    ∧ length (slides (build_presentation upper style topic presenter [])) = 2
    ∧ slide_texts (title_slide style topic presenter [])
      = (if 60 <? length topic then take 60 topic ++ py "..." else topic)
        :: text_lines (py "Presented by " ++ presenter)
    ∧ slide_texts (thank_you_slide style)
      = [ py "Thank You"; py "Questions & Discussion" ]
    ∧ match write_error (output_path isalnum topic template) with
      | None =>
          create_presentation_file upper isalnum write_error topic presenter
            template [] disk
          = (Return (output_path isalnum topic template),
             PyDict.set (output_path isalnum topic template)
               (build_presentation upper style topic presenter []) disk)
          ∧ PyDict.get (output_path isalnum topic template)
              (PyDict.set (output_path isalnum topic template)
                 (build_presentation upper style topic presenter []) disk)
            = Some (build_presentation upper style topic presenter [])
      | Some e =>
          create_presentation_file upper isalnum write_error topic presenter
            template [] disk
          = (Raise e, disk)
      end.
Proof.
  destruct (resolve_theme_total template disk) as [style Hstyle].
  exists style. split_and!; [done | done | done | | done |].
  - apply slide_texts_title_slide.
  - rewrite (create_presentation_file_run _ _ _ _ _ _ Hstyle).
    destruct (write_error _); [done |]. split; [done | apply get_set_eq].
Qed.

End renderer_facts.

(** C7 as the claim has it fails: these seven entries give a deck of eight
    slides, not nine; and with a theme name that holds a slash the write is
    refused, so that no deck is saved at all. *)
Lemma seven_slides_not_nine :
  let file_path :=
    output_path isalnum_ascii (py "Water Scarcity") (py "default") in
  let prs :=
    build_presentation upper_ascii default_style (py "Water Scarcity")
      (py "Asha") seven_slides in
  length seven_slides = 7
  ∧ create_presentation_file upper_ascii isalnum_ascii no_write_error
      (py "Water Scarcity") (py "Asha") (py "default") seven_slides []
    = (Return file_path, [(file_path, prs)])
  ∧ length (slides prs) = 8
  ∧ length (slides prs) ≠ 9
  ∧ create_presentation_file upper_ascii isalnum_ascii missing_directory
      (py "Water Scarcity") (py "Asha") (py "a/b") seven_slides []
    = (Raise (FileNotFoundError (py "outputs/Water Scarcity_a/b.pptx")), []).
Proof.
  split_and!;
    [reflexivity | by vm_compute | reflexivity | by vm_compute | by vm_compute].
Qed.

(** C10 as the claim has it fails twice.  With a theme name that holds a
    slash the write is refused and the renderer raises; and for a topic of
    more than sixty characters the title text is not the topic. *)
Lemma empty_list_can_fail :
  create_presentation_file upper_ascii isalnum_ascii missing_directory
    (py "Water Scarcity") (py "Asha") (py "a/b") [] []
  = (Raise (FileNotFoundError (py "outputs/Water Scarcity_a/b.pptx")), [])
  ∧ head (slide_texts (title_slide default_style long_topic (py "Asha") []))
    = Some (py "Global Water Scarcity and the Future of Urban Water Manageme...")
  ∧ head (slide_texts (title_slide default_style long_topic (py "Asha") []))
    ≠ Some long_topic.
Proof. split_and!; [by vm_compute | by vm_compute | by vm_compute]. Qed.

(* ===================================================================== *)
(** * The statements on sample inputs *)
(* ===================================================================== *)

Lemma web_search_dedup_witness :
  sub_queries sample_state
  = Some [py "water scarcity causes"; py "water scarcity impacts"]
  ∧ ∃ all_results unique_results w',
      search_loop sample_search_tool
        [py "water scarcity causes"; py "water scarcity impacts"] [] 0
      = (Return all_results, w')
      ∧ web_search sample_search_tool sample_state 0
        = (Return (with_search_results unique_results no_update), w')
      ∧ NoDup (url_of <$> unique_results)
      ∧ (∀ u, Some u ∈ url_of <$> unique_results
              ↔ Some u ∈ url_of <$> all_results)
      ∧ (∀ res, res ∈ unique_results →
           ∃ u, url_of res = Some u ∧ last_with_url u all_results = Some res).
Proof.
  split; [reflexivity |].
  apply (web_search_dedup sample_search_tool sample_state
           [py "water scarcity causes"; py "water scarcity impacts"] 0).
  reflexivity.
Defined.

Lemma summarize_results_buckets_witness :
  ∃ d,
    summarize_results sample_llm_facts sample_state 0
    = (Return (with_structured_context {| context_by_slide := d |} no_update), 1)
    ∧ (∀ t, t ∈ PyDict.keys d
            ↔ t = overview_title sample_plan ∨ t ∈ key_points sample_plan).
Proof.
  epose proof (summarize_results_buckets sample_llm_facts sample_state
                 (py "Water Scarcity") _ sample_plan _ _ 0 1
                 eq_refl eq_refl eq_refl eq_refl eq_refl)
    as (d & Hrun & _ & Hkeys & _).
  exists d. split; [exact Hrun | exact Hkeys].
Defined.

Lemma generate_slide_content_seven_witness :
  length (key_points sample_plan) = 4
  ∧ ∃ slides,
      generate_slide_content (scripted sample_script) sample_state 0
      = (Return (with_slide_contents slides no_update), 5)
      ∧ length slides = 7.
Proof.
  split; [reflexivity |].
  epose proof (generate_slide_content_seven (scripted sample_script)
                 sample_state (py "Water Scarcity") sample_plan _ _ 0
                 eq_refl eq_refl eq_refl eq_refl eq_refl)
    as (t1 & t2 & t3 & t4 & Hkp & Hrun).
  injection Hkp as <- <- <- <-. eexists. split; [exact Hrun | reflexivity].
Defined.

Lemma title_runs_split_witness :
  (λ r, (run_text r, font_color (run_font r)))
    <$> title_runs default_style (py "Causes - Why: it matters")
  = [ (py "Causes", Some (RGB 0 0 0));
      (py " - Why: it matters", Some (RGB 100 100 100)) ]
  ∧ (λ r, (run_text r, font_color (run_font r)))
      <$> title_runs default_style (py "Overview")
    = [ (py "Overview", Some (RGB 0 0 0)) ].
Proof.
  split.
  - rewrite (proj1 (title_runs_split default_style
                      (py "Causes - Why: it matters"))
               (py "Causes ") HYPHEN (py " Why: it matters"));
      [reflexivity | reflexivity | repeat constructor | reflexivity].
  - rewrite (proj2 (title_runs_split default_style (py "Overview")));
      [reflexivity | repeat constructor].
Defined.

Lemma unknown_theme_falls_back_witness :
  (py "Neon" ∉ PyDict.keys THEMES)
  ∧ resolve_theme (py "Neon") tt = resolve_theme (py "default") tt.
Proof.
  assert (py "Neon" ∉ PyDict.keys THEMES) as Hname
    by (apply (bool_decide_unpack _); vm_compute; exact I).
  split; [exact Hname |].
  exact (proj1 (unknown_theme_falls_back (py "Neon") tt Hname)).
Defined.

Lemma seven_entries_eight_slides_witness :
  length seven_slides = 7
  ∧ ∃ prs,
      create_presentation_file upper_ascii isalnum_ascii no_write_error
        (py "Water Scarcity") (py "Asha") (py "default") seven_slides []
      = (Return (output_path isalnum_ascii (py "Water Scarcity") (py "default")),
         [(output_path isalnum_ascii (py "Water Scarcity") (py "default"), prs)])
      ∧ length (slides prs) = 8.
Proof.
  split; [reflexivity |].
  destruct (seven_entries_eight_slides upper_ascii isalnum_ascii
              no_write_error (py "Water Scarcity") (py "Asha") (py "default")
              seven_slides [] eq_refl)
    as (style & s0 & s1 & s2 & s3 & s4 & s5 & s6 & _ & _ & _ & Hlen & Hrun).
  destruct Hrun as [Hrun _].
  exists (build_presentation upper_ascii style (py "Water Scarcity")
            (py "Asha") seven_slides).
  split; [exact Hrun | exact Hlen].
Defined.

Lemma distiller_failure_continues_witness :
  ∃ slides w'',
    generate_slide_content (scripted sample_script)
      (merge sample_state
         (with_structured_context {| context_by_slide := [] |}
            (with_error (py "Failed to generate structured summary.")
               no_update))) 1
    = (Return (with_slide_contents slides no_update), w'')
    ∧ length slides = 3 + length (key_points sample_plan).
Proof.
  epose proof (distiller_failure_continues failing_llm failing_llm
                 failing_llm_facts (scripted sample_script) sample_search_tool
                 upper_ascii isalnum_ascii no_write_error sample_state
                 (py "Water Scarcity")
                 _ sample_plan _ (Exception (py "quota exceeded")) 0 1 []
                 eq_refl eq_refl eq_refl eq_refl eq_refl)
    as (_ & _ & state' & -> & _ & _ & Hnext).
  exact Hnext.
Defined.

Lemma generation_failure_isolated_witness :
  2 ≤ length (key_points sample_plan)
  ∧ ∃ slides slides' n',
      generate_slide_content (scripted sample_script) sample_state 0
      = (Return (with_slide_contents slides no_update), n')
      ∧ generate_slide_content
          (scripted (fail_at 2 (Exception (py "quota exceeded")) sample_script))
          sample_state 0
        = (Return (with_slide_contents slides' no_update), n')
      ∧ slides' !! 4
        = Some {| title := py "Responses - Policy and Technology";
                  bullets := [py "Content generation failed."];
                  references := Some [] |}
      ∧ ∀ j, j ≠ 4 → slides' !! j = slides !! j.
Proof.
  split; [simpl; lia |].
  eapply (generation_failure_isolated sample_script sample_state
            (py "Water Scarcity") sample_plan _ _ 0 2
            (Exception (py "quota exceeded")));
    [reflexivity | reflexivity | reflexivity | reflexivity | simpl; lia].
Defined.

(* ===================================================================== *)
(** * More on the Deck Renderer: strings and the tokenizer *)
(* ===================================================================== *)


Lemma startswith_app p rest : startswith p (p ++ rest) = true.
Proof. induction p as [|a p IH]; simpl; [done |]. by rewrite N.eqb_refl. Qed.

Lemma startswith_inv p s : startswith p s = true → ∃ rest, s = p ++ rest.
Proof.
  revert s. induction p as [|a p IH]; intros s Hs; simpl in *.
  - by exists s.
  - destruct s as [|b s]; [done |].
    apply andb_prop in Hs as [->%N.eqb_eq Hs].
    destruct (IH s Hs) as [rest ->]. by exists rest.
Qed.

Lemma endswith_app p body : endswith p (body ++ p) = true.
Proof. unfold endswith. rewrite rev_app_distr. apply startswith_app. Qed.

Lemma Forall_lstrip (P : N → Prop) s : Forall P s → Forall P (lstrip s).
Proof.
  induction 1 as [|c s Hc Hs IH]; simpl; [done |].
  destruct (isspace c); [done | by constructor].
Qed.

Lemma Forall_strip (P : N → Prop) s : Forall P s → Forall P (strip s).
Proof.
  intros Hs. unfold strip, rstrip.
  by apply Forall_rev, Forall_lstrip, Forall_rev, Forall_lstrip.
Qed.



Lemma length_truncate n s : length (truncate n s) ≤ n + 3.
Proof.
  unfold truncate. destruct (n <? length s) eqn:Hn.
  - apply Nat.ltb_lt in Hn. rewrite length_app, length_take. simpl. lia.
  - apply Nat.ltb_ge in Hn. lia.
Qed.

Lemma take_truncate n s : take n (truncate n s) = take n s.
Proof.
  unfold truncate. destruct (n <? length s) eqn:Hn; [| done].
  apply Nat.ltb_lt in Hn.
  rewrite take_app_le by (rewrite length_take; lia).
  by rewrite take_take, Nat.min_id.
Qed.

(** What the lazy scan returns ends with the marker and has no newline
    before it; it is a prefix of the text scanned. *)
Lemma lazy_until_inv mark s m :
  lazy_until mark s = Some m →
  ∃ inner rest, m = inner ++ mark ∧ s = m ++ rest ∧ NEWLINE ∉ inner.
Proof.
  revert m. induction s as [|c s IH]; intros m; simpl.
  - destruct (startswith mark []) eqn:Hstart; [| done].
    intros [= <-]. destruct (startswith_inv _ _ Hstart) as [rest Hrest].
    exists [], rest. split_and!; [done | done | apply not_elem_of_nil].
  - destruct (startswith mark (c :: s)) eqn:Hstart.
    + intros [= <-]. destruct (startswith_inv _ _ Hstart) as [rest Hrest].
      exists [], rest. split_and!; [done | done | apply not_elem_of_nil].
    + destruct (c =? NEWLINE)%N eqn:Hc; [done |].
      destruct (lazy_until mark s) as [m'|]; [| done]. intros [= <-].
      destruct (IH m' eq_refl) as (inner & rest & -> & -> & Hnl).
      exists (c :: inner), rest. split_and!; [done | done |].
      apply not_elem_of_cons. split; [| done].
      intros <-. by rewrite N.eqb_refl in Hc.
Qed.

Lemma match_marked_inv mark s m :
  match_marked mark s = Some m →
  ∃ inner rest, m = mark ++ inner ++ mark ∧ s = m ++ rest ∧ NEWLINE ∉ inner.
Proof.
  unfold match_marked. destruct (startswith mark s) eqn:Hstart; [| done].
  destruct (startswith_inv _ _ Hstart) as [s1 ->].
  rewrite drop_app_length.
  destruct (lazy_until mark s1) as [m1|] eqn:Hlazy; [| done]. intros [= <-].
  destruct (lazy_until_inv _ _ _ Hlazy) as (inner & rest & -> & -> & Hnl).
  exists inner, rest. by rewrite <- !app_assoc.
Qed.

Lemma re_match_markup_inv s m :
  re_match_markup s = Some m →
  ∃ mark inner rest,
    (mark = BOLD_MARK ∨ mark = UNDERLINE_MARK)
    ∧ m = mark ++ inner ++ mark ∧ s = m ++ rest ∧ NEWLINE ∉ inner.
Proof.
  unfold re_match_markup.
  destruct (match_marked BOLD_MARK s) as [m1|] eqn:Hbold.
  - intros [= <-].
    destruct (match_marked_inv _ _ _ Hbold) as (inner & rest & ? & ? & ?).
    exists BOLD_MARK, inner, rest. by split_and!; [left | ..].
  - intros Hunder.
    destruct (match_marked_inv _ _ _ Hunder) as (inner & rest & ? & ? & ?).
    exists UNDERLINE_MARK, inner, rest. by split_and!; [right | ..].
Qed.

Lemma concat_re_split_aux s : ∀ skip pending,
  skip ≤ length s →
  concat (re_split_aux skip pending s) = pending ++ drop skip s.
Proof.
  induction s as [|c s IH]; intros skip pending Hskip.
  - simpl in *. assert (skip = 0) as -> by lia. simpl. by rewrite app_nil_r.
  - destruct skip as [|k]; cbn [re_split_aux].
    + destruct (re_match_markup (c :: s)) as [m|] eqn:Hmatch.
      * destruct (re_match_markup_inv _ _ Hmatch)
          as (mark & inner & rest & Hmark & Hm & Hs & _).
        assert (∃ m', m = c :: m' ∧ s = m' ++ rest) as (m' & -> & ->).
        { destruct m as [|c' m'].
          - destruct Hmark as [-> | ->]; discriminate Hm.
          - injection Hs as <- ->. by exists m'. }
        simpl. rewrite IH by (rewrite length_app; simpl; lia).
        simpl. rewrite Nat.sub_0_r, drop_app_length. done.
      * rewrite IH by lia. simpl. by rewrite <- app_assoc.
    + rewrite IH by (simpl in Hskip; lia). done.
Qed.

Section tokenizer_facts.
Variable style : Style.

(** X1. Tokenizing loses nothing: the segments of a bullet, put back
    together in order, are the bullet without its surrounding whitespace. *)
Theorem bullet_segments_concat (bullet_text : pystr) :
  concat (bullet_segments bullet_text) = strip bullet_text.
Proof.
  unfold bullet_segments, re_split_markup.
  rewrite concat_re_split_aux by lia. done.
Qed.

Lemma odd_segments_marked s : ∀ skip pending i seg,
  re_split_aux skip pending s !! (2 * i + 1) = Some seg →
  ∃ mark inner,
    (mark = BOLD_MARK ∨ mark = UNDERLINE_MARK)
    ∧ seg = mark ++ inner ++ mark ∧ NEWLINE ∉ inner.
Proof.
  induction s as [|c s IH]; intros skip pending i seg Hseg.
  - cbn [re_split_aux] in Hseg. apply lookup_lt_Some in Hseg.
    simpl in Hseg. lia.
  - destruct skip as [|k]; cbn [re_split_aux] in Hseg; [| by eapply IH].
    destruct (re_match_markup (c :: s)) as [m|] eqn:Hmatch; [| by eapply IH].
    destruct i as [|i].
    + simpl in Hseg. injection Hseg as <-.
      destruct (re_match_markup_inv _ _ Hmatch)
        as (mark & inner & rest & Hmark & Hm & _ & Hnl).
      by exists mark, inner.
    + replace (2 * S i + 1) with (S (S (2 * i + 1))) in Hseg by lia.
      change (re_split_aux (length m - 1) [] s !! (2 * i + 1) = Some seg)
        in Hseg.
      by eapply IH.
Qed.

Lemma slice_marked (a b : N) inner :
  slice_2_m2 ([a; b] ++ inner ++ [a; b]) = inner.
Proof.
  unfold slice_2_m2. simpl. rewrite length_app. simpl.
  replace (length inner + 2 - 2) with (length inner) by lia.
  by rewrite drop_0, take_app_length.
Qed.

Lemma segment_run_bold inner :
  segment_run style (BOLD_MARK ++ inner ++ BOLD_MARK)
  = {| run_text := inner;
       run_font := {| font_name := Some (body_font style);
                      font_size := Some 22%Z; font_bold := Some true;
                      font_underline := None;
                      font_color := Some (secondary_color style) |};
       run_hyperlink := None |}.
Proof.
  unfold segment_run. rewrite startswith_app.
  rewrite (app_assoc BOLD_MARK), endswith_app, <- app_assoc.
  change BOLD_MARK with [42%N; 42%N]. by rewrite slice_marked.
Qed.

Lemma segment_run_underline inner :
  segment_run style (UNDERLINE_MARK ++ inner ++ UNDERLINE_MARK)
  = {| run_text := inner;
       run_font := {| font_name := Some (body_font style);
                      font_size := Some 22%Z; font_bold := None;
                      font_underline := Some true;
                      font_color := Some (primary_color style) |};
       run_hyperlink := None |}.
Proof.
  unfold segment_run.
  assert (startswith BOLD_MARK (UNDERLINE_MARK ++ inner ++ UNDERLINE_MARK)
          = false) as -> by done.
  rewrite startswith_app.
  rewrite (app_assoc UNDERLINE_MARK), endswith_app, <- app_assoc.
  change UNDERLINE_MARK with [95%N; 95%N]. by rewrite slice_marked.
Qed.

(** X2. Every second segment of a bullet is a marked group, and its run
    shows exactly the text between the markers, which has no line break: a
    bold group in bold and in the secondary colour, an underline group
    underlined and in the primary colour. *)
Theorem marked_segment_run (bullet_text : pystr) (i : nat) (seg : pystr) :
  bullet_segments bullet_text !! (2 * i + 1) = Some seg →
  ∃ inner,
    (NEWLINE ∉ inner)
    ∧ ((seg = BOLD_MARK ++ inner ++ BOLD_MARK
        ∧ run_kind (segment_run style seg) = Bold
        ∧ font_color (run_font (segment_run style seg))
          = Some (secondary_color style))
       ∨ (seg = UNDERLINE_MARK ++ inner ++ UNDERLINE_MARK
          ∧ run_kind (segment_run style seg) = Underline
          ∧ font_color (run_font (segment_run style seg))
            = Some (primary_color style)))
    ∧ run_text (segment_run style seg) = inner.
Proof.
  intros Hseg.
  destruct (odd_segments_marked _ _ _ _ _ Hseg)
    as (mark & inner & [-> | ->] & -> & Hnl); exists inner.
  - rewrite segment_run_bold. split_and!; [done | by left | done].
  - rewrite segment_run_underline. split_and!; [done | by right | done].
Qed.

Lemma startswith_head_ne (a b c : N) s :
  a ≠ c → startswith [a; b] (c :: s) = false.
Proof. intros Hne%N.eqb_neq. cbn [startswith]. by rewrite Hne. Qed.

Lemma re_match_markup_plain c s :
  c ≠ 42%N → c ≠ 95%N → re_match_markup (c :: s) = None.
Proof.
  intros H42 H95. unfold re_match_markup, match_marked.
  change BOLD_MARK with [42%N; 42%N].
  change UNDERLINE_MARK with [95%N; 95%N].
  by rewrite !startswith_head_ne.
Qed.

Lemma re_split_aux_plain s : ∀ pending,
  Forall (λ c, c ≠ 42%N ∧ c ≠ 95%N) s →
  re_split_aux 0 pending s = [pending ++ s].
Proof.
  induction s as [|c s IH]; intros pending Hs; cbn [re_split_aux].
  - by rewrite app_nil_r.
  - apply Forall_cons in Hs as [[H42 H95] Hs].
    rewrite re_match_markup_plain by done.
    rewrite IH by done. by rewrite <- app_assoc.
Qed.

(** X3. A bullet with no asterisk and no underscore is one plain run in the
    primary colour, holding the bullet without its surrounding whitespace. *)
Theorem plain_bullet_one_run (bullet_text : pystr) :
  Forall (λ c, c ≠ 42%N ∧ c ≠ 95%N) bullet_text →
  bullet_runs style bullet_text
  = [ {| run_text := strip bullet_text;
         run_font := {| font_name := Some (body_font style);
                        font_size := Some 22%Z; font_bold := None;
                        font_underline := None;
                        font_color := Some (primary_color style) |};
         run_hyperlink := None |} ].
Proof.
  intros Hplain%Forall_strip.
  unfold bullet_runs, bullet_segments, re_split_markup.
  rewrite re_split_aux_plain by done. simpl.
  unfold segment_run.
  change BOLD_MARK with [42%N; 42%N].
  change UNDERLINE_MARK with [95%N; 95%N].
  destruct (strip bullet_text) as [|c s]; [done |].
  apply Forall_cons in Hplain as [[H42 H95] _].
  by rewrite !startswith_head_ne.
Qed.

End tokenizer_facts.

(* ===================================================================== *)
(** * More on the Deck Renderer: the deck *)
(* ===================================================================== *)

Section deck_facts.
Variable upper : pystr -> pystr.
Variable isalnum : N -> bool.
Variable style : Style.

Lemma lookup_content_slides topic rest : ∀ i j,
  content_slides upper style topic i rest !! j
  = content_slide upper style topic (i + j) <$> rest !! j.
Proof.
  induction rest as [|sd rest IH]; intros i j; [done |].
  destruct j as [|j]; simpl.
  - by rewrite Nat.add_0_r.
  - rewrite IH. by rewrite Nat.add_succ_r.
Qed.

(** X4. The deck has one slide more than there are entries, and two slides
    when there are none: the first entry only titles the opening slide. *)
Theorem deck_slide_count (topic presenter : pystr)
    (contents : list SlideContent) :
  length (slides (build_presentation upper style topic presenter contents))
  = S (Nat.max 1 (length contents)).
Proof.
  simpl. rewrite length_app, length_content_slides, length_drop. simpl. lia.
Qed.

Lemma last_slide_texts_content topic i sd :
  last (slide_texts (content_slide upper style topic i sd))
  = Some (py "Page No. " ++ format_02d (i + 1)).
Proof.
  unfold slide_texts, content_slide. cbn [sl_shapes].
  rewrite !fmap_app, !concat_app. rewrite !last_app. done.
Qed.

(** X5. Entry [k] of the input, for [k] at least one, is rendered as slide
    [k] of the deck (counting from zero), and the last text of that slide
    is its page badge, numbered [k + 1] with two digits at least.  Slide
    zero is the title slide and the closing slide comes last. *)
Theorem deck_slide_placement (topic presenter : pystr)
    (contents : list SlideContent) (k : nat) (slide_data : SlideContent) :
  1 ≤ k →
  contents !! k = Some slide_data →
  let deck := slides (build_presentation upper style topic presenter contents) in
  deck !! 0 = Some (title_slide style topic presenter contents)
  ∧ deck !! k = Some (content_slide upper style topic k slide_data)
  ∧ last (slide_texts (content_slide upper style topic k slide_data))
    = Some (py "Page No. " ++ format_02d (k + 1))
  ∧ last deck = Some (thank_you_slide style).
Proof.
  intros Hk Hlookup deck. split_and!.
  - done.
  - destruct k as [|k]; [lia |]. unfold deck. simpl.
    rewrite lookup_app_l.
    + rewrite lookup_content_slides, lookup_drop. simpl.
      by rewrite Hlookup.
    + rewrite length_content_slides, length_drop.
      apply lookup_lt_Some in Hlookup. lia.
  - apply last_slide_texts_content.
  - unfold deck. simpl. rewrite app_comm_cons. apply last_snoc.
Qed.

Lemma omap_TextRun (rs : list Run) :
  omap (λ x, match x with TextRun r => Some r | LineBreak => None end)
       (TextRun <$> rs) = rs.
Proof. induction rs as [|r rs IH]; csimpl; [done | by rewrite IH]. Qed.

Lemma hyperlinks_reference_runs urls : ∀ idx,
  omap run_hyperlink (reference_runs style idx urls)
  = filter (λ url, url ≠ []) urls.
Proof.
  induction urls as [|url urls IH]; intros idx; [done |].
  cbn [reference_runs]. rewrite omap_app, filter_cons.
  assert (omap run_hyperlink
            (match idx with 0 => [] | S _ => [plain_run (py " | ")] end) = [])
    as -> by (by destruct idx).
  csimpl. cbn [run_hyperlink]. destruct url as [|c url].
  - rewrite decide_False by (by intros ?). simpl. apply IH.
  - rewrite decide_True by done. simpl. by rewrite IH.
Qed.

Lemma length_reference_runs urls : ∀ idx,
  length (reference_runs style (S idx) urls) = 2 * length urls.
Proof.
  induction urls as [|url urls IH]; intros idx; [done |].
  cbn [reference_runs]. rewrite length_app. cbn [length].
  rewrite IH. lia.
Qed.

Lemma texts_reference_runs urls : ∀ idx,
  Forall (λ r, length (run_text r) ≤ 43) (reference_runs style idx urls).
Proof.
  induction urls as [|url urls IH]; intros idx; [constructor |].
  cbn [reference_runs]. apply Forall_app. split.
  - destruct idx; [constructor | constructor; [simpl; lia | constructor]].
  - constructor; [apply (length_truncate 40) | apply IH].
Qed.

(** X6. A slide without references ([None] or the empty list) gets no
    reference box.  Otherwise it gets one box of one paragraph: the label,
    then one run for each of the first two references, with a separator
    run between them.  The links of the paragraph point, in order, to those
    of the first two references that are not the empty string, in full: an
    empty reference gets a run and no link.  No run of the paragraph shows
    more than 43 characters. *)
Theorem reference_box (refs : option (list pystr)) :
  match refs with
  | None | Some [] => reference_shapes style refs = []
  | Some urls =>
      ∃ box p,
        reference_shapes style refs = [box]
        ∧ tf_paragraphs (sh_text_frame box) = [p]
        ∧ length (p_runs p) = 2 * length (take 2 urls)
        ∧ omap run_hyperlink (p_runs p)
          = filter (λ url, url ≠ []) (take 2 urls)
        ∧ Forall (λ r, length (run_text r) ≤ 43) (p_runs p)
  end.
Proof.
  destruct refs as [[|url urls]|]; [done | | done].
  eexists _, _. split; [reflexivity |]. split; [reflexivity |].
  unfold p_runs. cbn [p_content]. rewrite omap_app, omap_TextRun.
  change (omap _ (paragraph_text (py "Sources: ")))
    with [plain_run (py "Sources: ")].
  split_and!.
  - rewrite length_app. cbn [take reference_runs app length].
    rewrite length_reference_runs. lia.
  - rewrite omap_app. apply hyperlinks_reference_runs.
  - apply Forall_app. split; [| apply texts_reference_runs].
    constructor; [vm_compute; lia | constructor].
Qed.

Lemma split_breaks_no_break (s : pystr) : ∀ pending,
  Forall (λ c, c ≠ 10%N ∧ c ≠ 11%N) s →
  split_breaks pending s = [pending ++ s].
Proof.
  induction s as [|c s IH]; intros pending Hs; simpl.
  - by rewrite app_nil_r.
  - apply Forall_cons in Hs as [[H10 H11] Hs].
    apply N.eqb_neq in H10, H11. rewrite H10, H11. simpl.
    by rewrite IH, <- app_assoc.
Qed.

(** X7. The first text of the opening slide is the first entry's title, or
    the topic when there is no entry; it keeps its first sixty characters
    and is never longer than 63.  The texts after it are the lines of
    "Presented by " followed by the presenter's name that are not empty:
    one text when the name has no line feed and no vertical tab. *)
Theorem title_text_bounded (topic presenter : pystr)
    (contents : list SlideContent) :
  ∃ shown,
    slide_texts (title_slide style topic presenter contents)
    = shown :: text_lines (py "Presented by " ++ presenter)
    ∧ length shown ≤ 63
    ∧ take 60 shown = take 60 (default topic (title <$> head contents))
    ∧ (length (default topic (title <$> head contents)) ≤ 60 →
       shown = default topic (title <$> head contents))
    ∧ (Forall (λ c, c ≠ 10%N ∧ c ≠ 11%N) presenter →
       text_lines (py "Presented by " ++ presenter)
       = [py "Presented by " ++ presenter]).
Proof.
  exists (truncate 60 (default topic (title <$> head contents))).
  split_and!;
    [apply slide_texts_title_slide | apply (length_truncate 60)
    | apply take_truncate | |].
  - intros Hshort. unfold truncate.
    destruct (60 <? _) eqn:Hlt; [| done]. apply Nat.ltb_lt in Hlt. lia.
  - intros Hname. unfold text_lines.
    rewrite split_breaks_no_break.
    + rewrite filter_cons, decide_True; [done |].
      intros Hnil. cbn [app] in Hnil.
      apply app_eq_nil in Hnil as [Hlabel _]. by vm_compute in Hlabel.
    + apply Forall_app. split; [| done].
      vm_compute. repeat (constructor; [by split |]). constructor.
Qed.


End deck_facts.

(** X9. Resolving a theme never raises, whatever the name.  The two tables
    have the same names; a name of the tables gets the colours and fonts
    listed under it, any other name those of "default". *)
Theorem resolve_theme_never_raises {S} (name : pystr) (s : S) :
  ∃ style,
    resolve_theme name s = (Return style, s)
    ∧ match PyDict.get name THEMES, PyDict.get name THEME_FONTS with
      | Some theme, Some fonts =>
          PyDict.get (py "background") theme = Some (background_color style)
          ∧ PyDict.get (py "primary") theme = Some (primary_color style)
          ∧ PyDict.get (py "secondary") theme = Some (secondary_color style)
          ∧ PyDict.get (py "accent") theme = Some (accent_color style)
          ∧ PyDict.get (py "title") fonts = Some (title_font style)
          ∧ PyDict.get (py "body") fonts = Some (body_font style)
      | None, None => style = default_style
      | _, _ => False
      end.
Proof.
  destruct (decide (name ∈ PyDict.keys THEMES)) as [Hin|Hnotin].
  - unfold PyDict.keys, THEMES in Hin. simpl in Hin.
    repeat (apply elem_of_cons in Hin as [->|Hin];
            [eexists; split; [reflexivity | by split_and!] |]).
    by apply elem_of_nil in Hin.
  - exists default_style. split; [by apply resolve_unknown_theme |].
    by apply unknown_theme in Hnotin as [-> ->].
Qed.

(* ===================================================================== *)
(** * More on dictionaries: the order of the keys *)
(* ===================================================================== *)

Section pydict_order.
Context {K V : Type} `{EqDecision K}.
Implicit Types (k : K) (v : V) (d : pydict K V).

Lemma remove_dups_NoDup (l : list K) : NoDup l → remove_dups l = l.
Proof.
  induction 1 as [|x l Hx _ IH]; simpl; [done |].
  destruct (decide_rel elem_of x l); [done | by rewrite IH].
Qed.

Lemma first_occurrences_NoDup (l : list K) :
  NoDup l → reverse (remove_dups (reverse l)) = l.
Proof.
  intros Hl. rewrite remove_dups_NoDup by by rewrite reverse_Permutation.
  apply reverse_involutive.
Qed.

Lemma omap_fmap_Some {A} (f : A → option K) (l : list A) : ∀ ks,
  f <$> l = Some <$> ks → omap f l = ks.
Proof.
  induction l as [|x l IH]; intros [|k ks] Heq; try done.
  csimpl in *. injection Heq as -> Heq. csimpl. by rewrite (IH ks).
Qed.

Lemma set_fresh k v d :
  k ∉ PyDict.keys d → PyDict.set k v d = d ++ [(k, v)].
Proof.
  unfold PyDict.keys. induction d as [|[k' v'] d IH]; csimpl; [done |].
  intros [Hne Hnotin]%not_elem_of_cons.
  rewrite decide_False by done. by rewrite IH.
Qed.

(** Assigning the keys [l] one after the other leaves them in the order of
    their first occurrences. *)
Lemma keys_set_first_occurrences k v d (l : list K) :
  PyDict.keys d = reverse (remove_dups (reverse l)) →
  PyDict.keys (PyDict.set k v d) = reverse (remove_dups (reverse (l ++ [k]))).
Proof.
  intros Hkeys. rewrite keys_set, reverse_snoc. cbn [remove_dups].
  unfold PyDict.contains.
  destruct (decide_rel elem_of k (reverse l)) as [Hin|Hnotin].
  - assert (is_Some (PyDict.get k d)) as [b ->]; [| done].
    apply get_is_Some_keys. rewrite Hkeys.
    by apply elem_of_reverse, elem_of_remove_dups.
  - assert (PyDict.get k d = None) as ->.
    { apply get_None_keys. rewrite Hkeys.
      intros Hin. apply Hnotin.
      by apply elem_of_remove_dups, elem_of_reverse. }
    by rewrite reverse_cons, Hkeys.
Qed.

End pydict_order.

(* ===================================================================== *)
(** * More on the Web Searcher *)
(* ===================================================================== *)

(** The comprehension of line 104 as a fold, for records that have a URL. *)
Lemma url_dict_fold {S} rest : ∀ d (s : S),
  Forall has_url rest →
  url_dict rest d s
  = (Return (foldl (λ d res, match url_of res with
                             | Some u => PyDict.set u res d
                             | None => d
                             end) d rest), s).
Proof.
  induction rest as [|res rest IH]; intros d s Hall; [done |].
  apply Forall_cons in Hall as [[u Hu] Hall].
  cbn [url_dict foldl]. rewrite Hu.
  erewrite run_bind; [by apply IH |].
  unfold getkey. unfold url_of in Hu. by rewrite Hu.
Qed.

Lemma url_fold_keys rest : ∀ (d : pydict value record) seen,
  Forall has_url rest →
  PyDict.keys d = reverse (remove_dups (reverse (omap url_of seen))) →
  PyDict.keys (foldl (λ d res, match url_of res with
                               | Some u => PyDict.set u res d
                               | None => d
                               end) d rest)
  = reverse (remove_dups (reverse (omap url_of (seen ++ rest)))).
Proof.
  induction rest as [|res rest IH]; intros d seen Hall Hkeys.
  - by rewrite app_nil_r.
  - apply Forall_cons in Hall as [[u Hu] Hall]. cbn [foldl]. rewrite Hu.
    rewrite (cons_middle res seen rest), app_assoc. apply IH; [done |].
    rewrite omap_app. cbn [omap list_omap]. rewrite Hu.
    by apply keys_set_first_occurrences.
Qed.

Lemma url_fold_values rest : ∀ (d : pydict value record) seen,
  Forall has_url rest →
  NoDup (omap url_of (seen ++ rest)) →
  PyDict.keys d = omap url_of seen →
  PyDict.values d = seen →
  PyDict.values (foldl (λ d res, match url_of res with
                                 | Some u => PyDict.set u res d
                                 | None => d
                                 end) d rest)
  = seen ++ rest.
Proof.
  induction rest as [|res rest IH]; intros d seen Hall Hnd Hkeys Hvalues.
  - by rewrite app_nil_r.
  - apply Forall_cons in Hall as [[u Hu] Hall]. cbn [foldl]. rewrite Hu.
    rewrite (cons_middle res seen rest), app_assoc in Hnd |- *.
    assert (omap url_of (seen ++ [res]) = omap url_of seen ++ [u]) as Hsnoc.
    { rewrite omap_app. cbn [omap list_omap]. by rewrite Hu. }
    assert (u ∉ PyDict.keys d) as Hfresh.
    { rewrite Hkeys. rewrite omap_app, Hsnoc in Hnd.
      apply NoDup_app in Hnd as [Hnd _].
      apply NoDup_app in Hnd as (_ & Hdisj & _).
      intros Hin. apply (Hdisj u Hin). apply list_elem_of_here. }
    rewrite (set_fresh _ _ _ Hfresh). apply IH; [done | done | |].
    + unfold PyDict.keys in *. by rewrite fmap_app, Hkeys, Hsnoc.
    + unfold PyDict.values in *. by rewrite fmap_app, Hvalues.
Qed.

Section more_web_search_facts.
Context {World : Type}.
Variable search_tool : pystr -> M World tool_output.

Lemma search_loop_nothing queries : ∀ acc w,
  (∀ query w0,
     match (search_tool query w0).1 with
     | Return (OutDict (Some results)) => valid_results results = []
     | _ => True
     end) →
  ∃ w', search_loop search_tool queries acc w = (Return acc, w').
Proof.
  intros acc w Hnothing. revert acc w.
  induction queries as [|query rest IH]; intros acc w; [by exists w |].
  cbn [search_loop]. unfold mbind, M_bind, bind, try_except.
  specialize (Hnothing query w).
  destruct (search_tool query w) as [[[[results|]|]|e] w1]; simpl in *;
    try apply IH.
  rewrite Hnothing, app_nil_r. apply IH.
Qed.

(** X10. When no search call yields a record with a URL (each call raises,
    answers something that is no dict with results, or answers only
    invalid results), [web_search] still returns normally: it writes the
    empty list and no error. *)
Theorem web_search_nothing_found (state : GraphState) (queries : list pystr)
    (w : World) :
  sub_queries state = Some queries →
  (∀ query w0,
     match (search_tool query w0).1 with
     | Return (OutDict (Some results)) => valid_results results = []
     | _ => True
     end) →
  ∃ w', web_search search_tool state w
        = (Return (with_search_results [] no_update), w').
Proof.
  intros Hq Hnothing.
  destruct (search_loop_nothing queries [] w Hnothing) as [w' Hloop].
  exists w'. by apply (web_search_unfold _ _ queries _ [] _ []).
Qed.

(** X11. The records written by [web_search] stand in the order in which
    their URLs first occur among the accumulated results. *)
Theorem web_search_order (state : GraphState) (queries : list pystr)
    (w : World) :
  sub_queries state = Some queries →
  ∃ all_results unique_results w',
    search_loop search_tool queries [] w = (Return all_results, w')
    ∧ web_search search_tool state w
      = (Return (with_search_results unique_results no_update), w')
    ∧ omap url_of unique_results
      = reverse (remove_dups (reverse (omap url_of all_results))).
Proof.
  intros Hq.
  destruct (search_loop_returns search_tool queries [] w)
    as (all_results & w' & Hloop & Hall); [done |].
  pose proof (url_dict_fold all_results [] w' Hall) as Hfold.
  destruct (url_dict_indexes all_results [] [] w' Hall indexes_nil)
    as (d & Hdict & Hidx).
  rewrite Hfold in Hdict. injection Hdict as Hd.
  exists all_results, (PyDict.values d), w'. split_and!; [done | |].
  - eapply web_search_unfold; [done | done |]. by rewrite Hfold, Hd.
  - pose proof (url_fold_keys all_results [] [] Hall eq_refl) as Hkeys.
    rewrite app_nil_l, Hd in Hkeys. rewrite <- Hkeys.
    apply omap_fmap_Some. by eapply indexes_urls.
Qed.

End more_web_search_facts.

Section more_web_search_facts2.
Context {World : Type}.
Variable search_tool : pystr -> M World tool_output.

(** X12. When the accumulated results carry pairwise different URLs,
    [web_search] writes them all, unchanged and in the same order. *)
Theorem web_search_no_duplicates (state : GraphState) (queries : list pystr)
    (all_results : list record) (w w' : World) :
  sub_queries state = Some queries →
  search_loop search_tool queries [] w = (Return all_results, w') →
  NoDup (omap url_of all_results) →
  web_search search_tool state w
  = (Return (with_search_results all_results no_update), w').
Proof.
  intros Hq Hloop Hnd.
  destruct (search_loop_returns search_tool queries [] w)
    as (all' & w1 & Hloop' & Hall); [done |].
  rewrite Hloop in Hloop'. injection Hloop' as <- <-.
  pose proof (url_fold_values all_results [] [] Hall Hnd eq_refl eq_refl)
    as Hvalues.
  rewrite app_nil_l in Hvalues.
  erewrite web_search_unfold; [| done | done | by apply url_dict_fold].
  by rewrite Hvalues.
Qed.

End more_web_search_facts2.

(* ===================================================================== *)
(** * More on the Content Planner *)
(* ===================================================================== *)

Lemma mapM_getkey_missing {S} (k : string) (srs : list record) (s : S) :
  (∃ res, res ∈ srs ∧ PyDict.get (py k) res = None) →
  mapM (getkey k) srs s = (Raise (KeyError k), s).
Proof.
  induction srs as [|res srs IH]; intros (bad & Hin & Hbad).
  - by apply elem_of_nil in Hin.
  - cbn [mapM]. unfold mbind at 1, M_bind at 1, bind at 1.
    unfold getkey at 1. destruct (PyDict.get (py k) res) as [v|] eqn:Hget.
    + simpl. unfold mbind at 1, M_bind at 1, bind at 1.
      rewrite IH; [done |]. exists bad. split; [| done].
      apply elem_of_cons in Hin as [->|Hin]; [congruence | done].
    + done.
Qed.

Section planner_facts.
Context {World : Type}.
Variable llm_plan : Prompt -> M World SlidePlan.

(** X13. A search result without a "content" field is not tolerated by the
    planner: [plan_content] raises [KeyError] for it, outside its [try],
    before the model is called, in place of returning an error note. *)
Theorem plan_content_missing_content (state : GraphState) (tp : pystr)
    (srs : list record) (w : World) :
  topic state = Some tp →
  search_results state = Some srs →
  (∃ res, res ∈ srs ∧ PyDict.get (py "content") res = None) →
  plan_content llm_plan state w = (Raise (KeyError "content"), w).
Proof.
  intros Htopic Hsrs Hbad. unfold plan_content. rewrite Htopic, Hsrs.
  erewrite run_bind by reflexivity. simpl default.
  destruct srs as [|res0 srs0] eqn:Hsrs0.
  - destruct Hbad as (res & Hin & _). by apply elem_of_nil in Hin.
  - unfold mbind at 1, M_bind at 1, bind at 1.
    unfold mbind at 1, M_bind at 1, bind at 1.
    by rewrite (mapM_getkey_missing "content" _ w Hbad).
Qed.

End planner_facts.

(* ===================================================================== *)
(** * More on the Fact Distiller *)
(* ===================================================================== *)

Lemma keys_empty_buckets_from titles : ∀ (d : pydict pystr (list ContextPoint)) seen,
  PyDict.keys d = reverse (remove_dups (reverse seen)) →
  PyDict.keys (foldl (λ d t, PyDict.set t [] d) d titles)
  = reverse (remove_dups (reverse (seen ++ titles))).
Proof.
  induction titles as [|t titles IH]; intros d seen Hkeys; cbn [foldl].
  - by rewrite app_nil_r.
  - rewrite (cons_middle t seen titles), app_assoc. apply IH.
    by apply keys_set_first_occurrences.
Qed.

(** X14. The buckets stand in the order of the slide titles, a title that
    occurs twice counted at its first place; when the overview title and
    the key points are pairwise different the keys are exactly that list. *)
Theorem bucket_order (slide_titles : list pystr) (facts : list Fact) :
  PyDict.keys (bucket_facts slide_titles facts)
  = reverse (remove_dups (reverse slide_titles))
  ∧ (NoDup slide_titles →
     PyDict.keys (bucket_facts slide_titles facts) = slide_titles).
Proof.
  assert (PyDict.keys (bucket_facts slide_titles facts)
          = reverse (remove_dups (reverse slide_titles))) as Hkeys.
  { unfold bucket_facts. rewrite keys_foldl_bucket_fact.
    apply (keys_empty_buckets_from slide_titles [] []). done. }
  split; [done |]. intros Hnd. rewrite Hkeys.
  by apply first_occurrences_NoDup.
Qed.

Lemma points_set k bucket v (d : pydict pystr (list ContextPoint)) :
  PyDict.get k d = Some bucket →
  points (PyDict.set k v d) + length bucket = points d + length v.
Proof.
  unfold points, PyDict.values.
  induction d as [|[k' v'] d IH]; csimpl; [done |].
  destruct (decide (k = k')) as [->|Hne]; csimpl.
  - intros [= ->]. lia.
  - intros Hget. specialize (IH Hget). lia.
Qed.

Lemma points_bucket_fact d f :
  points (bucket_fact d f)
  = points d + (if decide (slide_title f ∈ PyDict.keys d) then 1 else 0).
Proof.
  unfold bucket_fact.
  destruct (PyDict.get (slide_title f) d) as [bucket|] eqn:Hget.
  - pose proof (points_set _ _ (bucket ++ [context_point f]) _ Hget) as Hset.
    rewrite length_app in Hset. simpl in Hset.
    rewrite decide_True; [lia |]. apply get_is_Some_keys. by eexists.
  - rewrite decide_False; [lia |]. by apply get_None_keys.
Qed.

Lemma points_empty_buckets titles : points (empty_buckets titles) = 0.
Proof.
  unfold points.
  assert (Forall (λ b, b = []) (PyDict.values (empty_buckets titles))) as Hall.
  { apply Forall_forall. intros b [[k b'] [-> Hin]]%list_elem_of_fmap. simpl.
    apply elem_of_get in Hin; [| apply NoDup_keys_empty_buckets].
    rewrite get_empty_buckets in Hin. by destruct (decide (k ∈ titles)); simplify_eq. }
  induction Hall as [|b bs -> _ IH]; [done | by csimpl].
Qed.

(** X15. Bucketing neither loses nor repeats a fact that names a slide of
    the plan: the buckets hold together as many points as there are facts
    whose [slide_title] is one of the slide titles. *)
Theorem bucket_facts_conservation (slide_titles : list pystr)
    (facts : list Fact) :
  sum_list (length <$> PyDict.values (bucket_facts slide_titles facts))
  = length (filter (λ f, slide_title f ∈ slide_titles) facts).
Proof.
  fold (points (bucket_facts slide_titles facts)). unfold bucket_facts.
  pose proof (points_empty_buckets slide_titles) as Hzero.
  pose proof (elem_of_keys_empty_buckets slide_titles) as Hkeys.
  revert Hzero Hkeys. generalize (empty_buckets slide_titles) as d.
  assert (∀ (d : pydict pystr (list ContextPoint)) n,
            points d = n →
            (∀ t, t ∈ PyDict.keys d ↔ t ∈ slide_titles) →
            points (foldl bucket_fact d facts)
            = n + length (filter (λ f, slide_title f ∈ slide_titles) facts))
    as Hgen.
  { induction facts as [|f facts IH]; intros d n Hn Hkeys; cbn [foldl].
    - rewrite filter_nil. simpl. lia.
    - rewrite filter_cons.
      rewrite (IH (bucket_fact d f)
                 (n + if decide (slide_title f ∈ slide_titles) then 1 else 0)).
      + destruct (decide (slide_title f ∈ slide_titles)); simpl; lia.
      + rewrite points_bucket_fact, Hn.
        destruct (decide (slide_title f ∈ PyDict.keys d)) as [Hin|Hnotin];
          destruct (decide (slide_title f ∈ slide_titles)) as [Hin'|Hnotin'];
          try done; exfalso; by rewrite Hkeys in *.
      + intros t. by rewrite keys_bucket_fact. }
  intros d Hzero Hkeys. by rewrite (Hgen d 0).
Qed.

(* ===================================================================== *)
(** * More on the Slide Content Generator *)
(* ===================================================================== *)

(** X16. Whatever the model answers and whichever calls fail, the node
    calls the model once for each key point and once for the conclusion,
    and writes three slides more than the plan has key points. *)
Theorem generate_slide_content_calls
    (script : nat -> Prompt -> result SlideContent) (state : GraphState)
    (tp : pystr) (plan : SlidePlan) (srs : list record)
    (contents : list value) (n : nat) :
  topic state = Some tp →
  slide_plan state = Some plan →
  search_results state = Some srs →
  mapM (PyDict.get (py "content")) srs = Some contents →
  ∃ slides,
    generate_slide_content (scripted script) state n
    = (Return (with_slide_contents slides no_update),
       n + length (key_points plan) + 1)
    ∧ length slides = length (key_points plan) + 3.
Proof.
  intros Htopic Hplan Hsrs Hcontents. eexists. split.
  - erewrite scripted_generate_slide_content by done.
    f_equal. lia.
  - rewrite !length_app, length_imap. simpl. lia.
Qed.

(* ===================================================================== *)
(** * More on the workflow *)
(* ===================================================================== *)

Section more_pipeline_facts.
Context {World : Type}.
Variable llm_queries : Prompt -> M World (list pystr).
Variable llm_plan : Prompt -> M World SlidePlan.
Variable llm_facts : Prompt -> M World (option (list Fact)).
Variable llm_slide : Prompt -> M World SlideContent.
Variable search_tool : pystr -> M World tool_output.
Variable upper : pystr -> pystr.
Variable isalnum : N -> bool.
Variable write_error : pystr -> option exn.

Local Abbreviation act :=
  (node_action llm_queries llm_plan llm_facts llm_slide search_tool upper
     isalnum write_error).
Local Abbreviation go :=
  (run llm_queries llm_plan llm_facts llm_slide search_tool upper isalnum
     write_error).
Local Abbreviation invoke :=
  (app_graph llm_queries llm_plan llm_facts llm_slide search_tool upper
     isalnum write_error).




(** X18. A failed query expansion does not stop the graph by itself: the
    error note is merged into the state and [web_search] runs next.  For a
    state without "sub_queries" that node raises [KeyError], and the whole
    run ends with this exception in place of the error note. *)
Theorem expand_failure_aborts (state : GraphState) (tp : pystr) (e : exn)
    (w w' : World) (disk : Disk) :
  topic state = Some tp →
  sub_queries state = None →
  llm_queries (QueryPrompt tp) w = (Raise e, w') →
  expand_queries llm_queries state w
  = (Return (with_error (py "Failed to expand queries: " ++ exn_str e)
                        no_update), w')
  ∧ invoke state (w, disk) = (Raise (KeyError "sub_queries"), (w', disk)).
Proof.
  intros Htopic Hq Hllm.
  assert (expand_queries llm_queries state w
          = (Return (with_error (py "Failed to expand queries: " ++ exn_str e)
                                no_update), w')) as Hexpand.
  { unfold expand_queries. rewrite Htopic.
    erewrite run_bind by reflexivity.
    unfold try_except, mbind, M_bind, bind. by rewrite Hllm. }
  split; [done |].
  unfold app_graph, entry_point. cbn [length edges].
  rewrite (run_unfold _ _ _ _ _ _ _ _ _ _ WEB_SEARCH) by done.
  cbn [node_action]. unfold in_world at 1. rewrite Hexpand.
  rewrite (run_unfold _ _ _ _ _ _ _ _ _ _ PLAN_CONTENT) by done.
  cbn [node_action]. unfold in_world, web_search, mbind, M_bind, bind.
  simpl. by rewrite Hq.
Qed.

(** X19. When [plan_content] records a failure and the state has no plan,
    the run ends in [summarize_results] with [KeyError] for "slide_plan":
    that node reads the plan outside any [try]. *)
Theorem plan_failure_aborts (state : GraphState) (tp msg : pystr)
    (srs : list record) (w w' : World) (disk : Disk) (fuel : nat) :
  topic state = Some tp →
  search_results state = Some srs →
  slide_plan state = None →
  plan_content llm_plan state w = (Return (with_error msg no_update), w') →
  go (S (S fuel)) PLAN_CONTENT state (w, disk)
  = (Raise (KeyError "slide_plan"), (w', disk)).
Proof.
  intros Htopic Hsrs Hplan Hfail.
  rewrite (run_unfold _ _ _ _ _ _ _ _ _ _ SUMMARIZE_RESULTS) by done.
  cbn [node_action]. unfold in_world at 1. rewrite Hfail.
  rewrite (run_unfold _ _ _ _ _ _ _ _ _ _ GENERATE_SLIDE_CONTENT) by done.
  cbn [node_action]. unfold in_world, summarize_results, mbind, M_bind, bind.
  simpl. by rewrite Htopic, Hsrs, Hplan.
Qed.



End more_pipeline_facts.

Lemma scripted_search_loop script queries : ∀ acc n,
  search_loop (scripted_search script) queries acc n
  = (Return (acc ++ concat (imap (λ i query, found (script (n + i) query))
                                 queries)),
     n + length queries).
Proof.
  induction queries as [|query rest IH]; intros acc n.
  - simpl. by rewrite app_nil_r, Nat.add_0_r.
  - cbn [search_loop]. unfold mbind at 1, M_bind at 1, bind at 1.
    unfold try_except, mbind, M_bind, bind, scripted_search at 1.
    rewrite imap_cons, Nat.add_0_r. cbn [concat length].
    assert (∀ acc', search_loop (scripted_search script) rest acc' (S n)
                    = (Return (acc' ++ concat (imap
                         ((λ i query, found (script (n + i) query)) ∘ S) rest)),
                       n + S (length rest))) as Hrest.
    { intros acc'. rewrite IH. f_equal; [| lia]. do 3 f_equal.
      apply imap_ext. intros i q _. simpl. by rewrite Nat.add_succ_r. }
    destruct (script n query) as [[[results|]|]|e]; simpl;
      rewrite Hrest; by rewrite ?app_nil_l, ?app_assoc.
Qed.

(** X21. The searches are independent of each other: the accumulated
    results are, in query order, the valid records of every call that
    returned a dict with results; a call that raises, or returns anything
    else, adds nothing and takes nothing away from the others. *)
Theorem search_loop_accumulates (script : nat -> pystr -> result tool_output)
    (queries : list pystr) (n : nat) :
  search_loop (scripted_search script) queries [] n
  = (Return (concat (imap (λ i query, found (script (n + i) query)) queries)),
     n + length queries).
Proof. by rewrite scripted_search_loop. Qed.

(** X22. A search result without a "content" field makes
    [generate_slide_content] raise [KeyError] when it builds the conclusion
    prompt: by then the model has been called for every key point, and the
    slides written so far are lost with the exception. *)
Theorem generate_slide_content_missing_content
    (script : nat -> Prompt -> result SlideContent) (state : GraphState)
    (tp : pystr) (plan : SlidePlan) (srs : list record) (n : nat) :
  topic state = Some tp →
  slide_plan state = Some plan →
  search_results state = Some srs →
  (∃ res, res ∈ srs ∧ PyDict.get (py "content") res = None) →
  generate_slide_content (scripted script) state n
  = (Raise (KeyError "content"), n + length (key_points plan)).
Proof.
  intros Htopic Hplan Hsrs Hbad. unfold generate_slide_content.
  rewrite Htopic, Hplan, Hsrs.
  do 2 (erewrite run_bind by reflexivity).
  erewrite run_bind by apply scripted_key_point_loop.
  erewrite run_bind by reflexivity.
  unfold mbind at 1, M_bind at 1, bind at 1.
  by rewrite (mapM_getkey_missing "content" _ _ Hbad).
Qed.

(* ===================================================================== *)
(** * The further statements on sample inputs *)
(* ===================================================================== *)

Lemma marked_segment_run_witness :
  bullet_segments alpha_beta_bullet !! 3 = Some (py "__Beta__")
  ∧ ∃ inner,
      (NEWLINE ∉ inner)
      ∧ run_text (segment_run default_style (py "__Beta__")) = inner.
Proof.
  split; [reflexivity |].
  destruct (marked_segment_run default_style alpha_beta_bullet 1
              (py "__Beta__") eq_refl) as (inner & Hnl & _ & Htext).
  by exists inner.
Defined.

Lemma plain_bullet_one_run_witness :
  Forall (λ c, c ≠ 42%N ∧ c ≠ 95%N) (py "  rain falls ")
  ∧ run_text <$> bullet_runs default_style (py "  rain falls ")
    = [py "rain falls"].
Proof.
  assert (Forall (λ c, c ≠ 42%N ∧ c ≠ 95%N) (py "  rain falls ")) as Hplain
    by (repeat constructor; discriminate).
  split; [exact Hplain |].
  by rewrite (plain_bullet_one_run default_style _ Hplain).
Defined.

Lemma deck_slide_placement_witness :
  seven_slides !! 6 = Some (sample_slide "Takeaways - The Path Forward")
  ∧ last (slide_texts
            (content_slide upper_ascii default_style (py "Water Scarcity") 6
               (sample_slide "Takeaways - The Path Forward")))
    = Some (py "Page No. 07").
Proof.
  split; [reflexivity |].
  destruct (deck_slide_placement upper_ascii default_style
              (py "Water Scarcity") (py "Asha") seven_slides 6
              (sample_slide "Takeaways - The Path Forward"))
    as (_ & _ & Hbadge & _); [lia | reflexivity |].
  exact Hbadge.
Defined.

Lemma title_text_bounded_witness :
  (∃ shown,
     slide_texts (title_slide default_style (py "Water Scarcity") (py "Asha") [])
     = [shown; py "Presented by Asha"]
     ∧ shown = py "Water Scarcity")
  ∧ (∃ shown,
       slide_texts (title_slide default_style (py "Water Scarcity")
                      (py "Asha" ++ [NEWLINE] ++ py "Rao") [])
       = [shown; py "Presented by Asha"; py "Rao"]).
Proof.
  split.
  - destruct (title_text_bounded default_style (py "Water Scarcity")
                (py "Asha") []) as (shown & Htexts & _ & _ & Hshort & Hone).
    exists shown. split; [| apply Hshort; simpl; lia].
    rewrite Htexts, Hone; [reflexivity |].
    vm_compute. repeat (constructor; [split; discriminate |]). constructor.
  - destruct (title_text_bounded default_style (py "Water Scarcity")
                (py "Asha" ++ [NEWLINE] ++ py "Rao") [])
      as (shown & Htexts & _).
    exists shown. exact Htexts.
Defined.

Lemma web_search_nothing_found_witness :
  ∃ w', web_search (scripted_search failing_script) sample_state 0
        = (Return (with_search_results [] no_update), w').
Proof.
  apply (web_search_nothing_found (scripted_search failing_script)
           sample_state [py "water scarcity causes";
                         py "water scarcity impacts"] 0).
  - reflexivity.
  - intros query w0. exact I.
Defined.

Lemma web_search_order_witness :
  ∃ all_results unique_results w',
    search_loop sample_search_tool
      [py "water scarcity causes"; py "water scarcity impacts"] [] 0
    = (Return all_results, w')
    ∧ web_search sample_search_tool sample_state 0
      = (Return (with_search_results unique_results no_update), w')
    ∧ omap url_of unique_results
      = reverse (remove_dups (reverse (omap url_of all_results))).
Proof.
  apply (web_search_order sample_search_tool sample_state
           [py "water scarcity causes"; py "water scarcity impacts"] 0).
  reflexivity.
Defined.

Lemma web_search_no_duplicates_witness :
  web_search (scripted_search distinct_script) sample_state 0
  = (Return (with_search_results
               [ sample_result "https://a.example/1" "first";
                 sample_result "https://b.example/2" "second" ]
               no_update), 2).
Proof.
  apply (web_search_no_duplicates (scripted_search distinct_script)
           sample_state [py "water scarcity causes";
                         py "water scarcity impacts"]).
  - reflexivity.
  - reflexivity.
  - apply (bool_decide_unpack _). vm_compute. exact I.
Defined.

Lemma plan_content_missing_content_witness :
  plan_content (failing_llm (A := SlidePlan)) no_content_state 0
  = (Raise (KeyError "content"), 0).
Proof.
  apply (plan_content_missing_content failing_llm no_content_state
           (py "Water Scarcity")
           [ sample_result "https://a.example/1" "first";
             [ (py "url", VStr (py "https://b.example/2")) ] ] 0).
  - reflexivity.
  - reflexivity.
  - exists [ (py "url", VStr (py "https://b.example/2")) ].
    split; [| reflexivity].
    apply list_elem_of_further, list_elem_of_here.
Defined.

Lemma bucket_order_witness :
  PyDict.keys (bucket_facts (overview_title sample_plan :: key_points sample_plan) [])
  = overview_title sample_plan :: key_points sample_plan.
Proof.
  apply (proj2 (bucket_order (overview_title sample_plan :: key_points sample_plan) [])).
  apply (bool_decide_unpack _). vm_compute. exact I.
Defined.

Lemma generate_slide_content_calls_witness :
  ∃ slides,
    generate_slide_content (scripted sample_script) sample_state 0
    = (Return (with_slide_contents slides no_update),
       0 + length (key_points sample_plan) + 1)
    ∧ length slides = length (key_points sample_plan) + 3.
Proof.
  eapply (generate_slide_content_calls sample_script sample_state
            (py "Water Scarcity") sample_plan _ _ 0); reflexivity.
Defined.

Lemma expand_failure_aborts_witness :
  app_graph failing_llm failing_llm failing_llm_facts (scripted sample_script)
    sample_search_tool upper_ascii isalnum_ascii no_write_error initial_state
    (0, [])
  = (Raise (KeyError "sub_queries"), (1, [])).
Proof.
  apply (expand_failure_aborts failing_llm failing_llm failing_llm_facts
           (scripted sample_script) sample_search_tool upper_ascii
           isalnum_ascii no_write_error initial_state (py "Water Scarcity")
           (Exception (py "quota exceeded")) 0 1 []); reflexivity.
Defined.

Lemma plan_failure_aborts_witness :
  run failing_llm failing_llm failing_llm_facts (scripted sample_script)
    sample_search_tool upper_ascii isalnum_ascii no_write_error 4 PLAN_CONTENT
    searched_state (0, [])
  = (Raise (KeyError "slide_plan"), (1, [])).
Proof.
  eapply (plan_failure_aborts failing_llm failing_llm failing_llm_facts
            (scripted sample_script) sample_search_tool upper_ascii
            isalnum_ascii no_write_error searched_state (py "Water Scarcity")
            (py "Failed to generate a valid presentation plan: "
             ++ py "quota exceeded")
            [ sample_result "https://a.example/1" "first" ] 0 1 [] 2);
    reflexivity.
Defined.


Lemma generate_slide_content_missing_content_witness :
  generate_slide_content (scripted sample_script) no_content_state 0
  = (Raise (KeyError "content"), 0 + length (key_points sample_plan)).
Proof.
  apply (generate_slide_content_missing_content sample_script
           no_content_state (py "Water Scarcity") sample_plan
           [ sample_result "https://a.example/1" "first";
             [ (py "url", VStr (py "https://b.example/2")) ] ] 0).
  - reflexivity.
  - reflexivity.
  - reflexivity.
  - exists [ (py "url", VStr (py "https://b.example/2")) ].
    split; [| reflexivity].
    apply list_elem_of_further, list_elem_of_here.
Defined.
